(** * iCloud Calendar MCP server (src/index.ts): a shallow embedding

    The server translates tool calls into AppleScript text, runs the text
    with [osascript] and parses the textual reply.  This development embeds
    the string functions, the script templates, the reply parsers and the
    two request handlers of [src/index.ts], and proves the properties the
    specification states about them.

    Modelling conventions.
    - A JavaScript string is the list of its UTF-16 code units ([jsstring]).
    - A value typed [string] in TypeScript that may be missing at run time
      (TypeScript erases the annotations, and the handler only casts the
      argument object) is an [option jsstring]; [None] is [undefined].
    - The subprocess, the [Date] constructor and the wording of the
      engine's [TypeError]s are supplied by a [Host]; a handler run yields
      the list of subprocess calls it performed and its outcome. *)

From Stdlib Require Import List NArith ZArith Bool Ascii String Lia.
From Stdlib Require DecimalNat.
Import ListNotations.

Set Implicit Arguments.

(* ================================================================== *)
(** ** JavaScript strings *)

Module Js.

(** A string value: its UTF-16 code units. *)
Definition jsstring : Type := list N.

(** An ASCII literal of the source, as code units. *)
Definition lit (s : string) : jsstring :=
  List.map N_of_ascii (list_ascii_of_string s).

Definition dq : jsstring := [34%N].          (* the double quote *)
Definition bs : jsstring := [92%N].          (* the backslash *)
Definition nl : jsstring := [10%N].          (* line feed *)

(** A double-quoted piece of a template. *)
Definition quoted (s : jsstring) : jsstring := dq ++ s ++ dq.

Fixpoint eqb (a b : jsstring) : bool :=
  match a, b with
  | [], [] => true
  | x :: a', y :: b' => N.eqb x y && eqb a' b'
  | _, _ => false
  end.

(** Truthiness of a string that may be [undefined]. *)
Definition truthy (v : option jsstring) : bool :=
  match v with
  | Some (_ :: _) => true
  | _ => false
  end.

(** [v || d] on strings. *)
Definition or_else (v : option jsstring) (d : jsstring) : jsstring :=
  match v with
  | Some (c :: s) => c :: s
  | _ => d
  end.

(** [Array.prototype.join]. *)
Fixpoint join (sep : jsstring) (l : list jsstring) : jsstring :=
  match l with
  | [] => []
  | [x] => x
  | x :: rest => x ++ sep ++ join sep rest
  end.

(** [str.replace(/c/g, by)] for a pattern that is one literal character. *)
Definition replace_char (c : N) (by_ : jsstring) (str : jsstring) : jsstring :=
  flat_map (fun x => if N.eqb x c then by_ else [x]) str.

(** White space and line terminators, as [String.prototype.trim] sees them. *)
Definition is_space (c : N) : bool :=
  (N.leb 9 c && N.leb c 13) || N.eqb c 32 || N.eqb c 160 || N.eqb c 5760
  || (N.leb 8192 c && N.leb c 8202) || N.eqb c 8232 || N.eqb c 8233
  || N.eqb c 8239 || N.eqb c 8287 || N.eqb c 12288 || N.eqb c 65279.

Fixpoint trimStart (s : jsstring) : jsstring :=
  match s with
  | c :: s' => if is_space c then trimStart s' else s
  | [] => []
  end.

Definition trimEnd (s : jsstring) : jsstring := rev (trimStart (rev s)).

Definition trim (s : jsstring) : jsstring := trimEnd (trimStart s).

(** [isPrefix p s]: [s] starts with [p]. *)
Fixpoint isPrefix (p s : jsstring) : bool :=
  match p, s with
  | [], _ => true
  | x :: p', y :: s' => N.eqb x y && isPrefix p' s'
  | _ :: _, [] => false
  end.

(** [str.split(sep)] for a non-empty separator: the pieces between the
    successive leftmost occurrences of [sep].  [skip] counts the code units
    of a separator still to pass over, [cur] is the piece being read, in
    reverse. *)
Fixpoint split_from (sep : jsstring) (skip : nat) (cur : jsstring)
         (s : jsstring) : list jsstring :=
  match s with
  | [] => [rev cur]
  | c :: s' =>
      match skip with
      | S k => split_from sep k cur s'
      | O =>
          if isPrefix sep s
          then rev cur :: split_from sep (List.length sep - 1) [] s'
          else split_from sep 0 (c :: cur) s'
      end
  end.

Definition split (sep : jsstring) (str : jsstring) : list jsstring :=
  match sep with
  | [] => List.map (fun c => [c]) str
  | _ => split_from sep 0 [] str
  end.

(** [Array.prototype.map] with the index argument. *)
Fixpoint mapi_from {A B : Type} (f : A -> nat -> B) (i : nat) (l : list A)
  : list B :=
  match l with
  | [] => []
  | x :: l' => f x i :: mapi_from f (S i) l'
  end.

Definition mapi {A B : Type} (f : A -> nat -> B) (l : list A) : list B :=
  mapi_from f 0 l.

(** *** Numbers rendered as text *)

Definition digit_code (d : N) : N := (48 + d)%N.

Fixpoint of_uint (u : Decimal.uint) : jsstring :=
  match u with
  | Decimal.Nil => []
  | Decimal.D0 u' => digit_code 0 :: of_uint u'
  | Decimal.D1 u' => digit_code 1 :: of_uint u'
  | Decimal.D2 u' => digit_code 2 :: of_uint u'
  | Decimal.D3 u' => digit_code 3 :: of_uint u'
  | Decimal.D4 u' => digit_code 4 :: of_uint u'
  | Decimal.D5 u' => digit_code 5 :: of_uint u'
  | Decimal.D6 u' => digit_code 6 :: of_uint u'
  | Decimal.D7 u' => digit_code 7 :: of_uint u'
  | Decimal.D8 u' => digit_code 8 :: of_uint u'
  | Decimal.D9 u' => digit_code 9 :: of_uint u'
  end.

(** [String(n)] for a natural number and for an integer. *)
Definition String_of_nat (n : nat) : jsstring := of_uint (Nat.to_uint n).

Definition String_of_Z (z : Z) : jsstring :=
  match Z.to_int z with
  | Decimal.Pos u => of_uint u
  | Decimal.Neg u => lit "-" ++ of_uint u
  end.

(** A number as the [Date] getters return it: an integer, or [NaN]. *)
Inductive number : Type :=
| NaN : number
| Int : Z -> number.

Definition plus1 (x : number) : number :=
  match x with
  | NaN => NaN
  | Int z => Int (z + 1)
  end.

(** [x.toString()] and [`${x}`]. *)
Definition toString (x : number) : jsstring :=
  match x with
  | NaN => lit "NaN"
  | Int z => String_of_Z z
  end.

(** [s.padStart(n, fill)] for a fill of one character. *)
Definition padStart (n : nat) (fill : N) (s : jsstring) : jsstring :=
  repeat fill (n - List.length s) ++ s.

End Js.

Import Js.


(* ================================================================== *)
(** ** [JSON.stringify(value, null, 2)] *)

Module JSON.

#[local] Set Warnings "-register-all".

Inductive value : Type :=
| Bool (b : bool)
| Str (s : jsstring)
| Arr (items : list value)
| Obj (props : list (jsstring * value)).

(** An object literal whose properties may hold [undefined]: such a
    property is left out of the text, so it is left out of the value. *)
Definition object (props : list (jsstring * option value)) : value :=
  Obj (flat_map (fun p => match snd p with
                          | Some v => [(fst p, v)]
                          | None => []
                          end) props).

Definition hex_digit (d : N) : N :=
  if N.ltb d 10 then (48 + d)%N else (87 + d)%N.

Definition unicodeEscape (c : N) : jsstring :=
  bs ++ lit "u"
  ++ [hex_digit (N.modulo (N.div c 4096) 16);
      hex_digit (N.modulo (N.div c 256) 16);
      hex_digit (N.modulo (N.div c 16) 16);
      hex_digit (N.modulo c 16)].

Definition is_leading (c : N) : bool := N.leb 55296 c && N.leb c 56319.
Definition is_trailing (c : N) : bool := N.leb 56320 c && N.leb c 57343.

(** One code unit that is not part of a surrogate pair. *)
Definition quoteUnit (c : N) : jsstring :=
  if N.eqb c 8 then bs ++ lit "b"
  else if N.eqb c 9 then bs ++ lit "t"
  else if N.eqb c 10 then bs ++ lit "n"
  else if N.eqb c 12 then bs ++ lit "f"
  else if N.eqb c 13 then bs ++ lit "r"
  else if N.eqb c 34 then bs ++ dq
  else if N.eqb c 92 then bs ++ bs
  else if N.ltb c 32 || is_leading c || is_trailing c then unicodeEscape c
  else [c].

Fixpoint quoteUnits (s : jsstring) : jsstring :=
  match s with
  | [] => []
  | c :: s' =>
      match s' with
      | d :: s'' =>
          if is_leading c && is_trailing d
          then c :: d :: quoteUnits s''
          else quoteUnit c ++ quoteUnits s'
      | [] => quoteUnit c
      end
  end.

Definition quoteJSONString (s : jsstring) : jsstring :=
  dq ++ quoteUnits s ++ dq.

Definition gap : jsstring := lit "  ".

Fixpoint serialize (indent : jsstring) (v : value) {struct v} : jsstring :=
  match v with
  | Bool true => lit "true"
  | Bool false => lit "false"
  | Str s => quoteJSONString s
  | Arr items =>
      match items with
      | [] => lit "[]"
      | _ =>
          let inner := indent ++ gap in
          lit "[" ++ nl ++ inner
          ++ join (lit "," ++ nl ++ inner) (List.map (serialize inner) items)
          ++ nl ++ indent ++ lit "]"
      end
  | Obj props =>
      match props with
      | [] => lit "{}"
      | _ =>
          let inner := indent ++ gap in
          lit "{" ++ nl ++ inner
          ++ join (lit "," ++ nl ++ inner)
               (List.map (fun p => match p with
                                   | (k, x) =>
                                       quoteJSONString k ++ lit ": "
                                       ++ serialize inner x
                                   end) props)
          ++ nl ++ indent ++ lit "}"
      end
  end.

Definition stringify (v : value) : jsstring := serialize [] v.

End JSON.

(* ================================================================== *)
(** ** Errors, the host and the effect of a run *)

(** The two codes of the SDK's [ErrorCode] that the server raises. *)
Inductive ErrorCode : Type :=
| MethodNotFound
| InternalError.

(** What a [throw] carries: an [McpError] built from a code and a message,
    another [Error] (the engine's [TypeError]s), or a value that is no
    [Error] at all. *)
Inductive exn : Type :=
| McpError (code : ErrorCode) (message : jsstring)
| JsError (message : jsstring)
| NonError.

(** The call [execFileAsync(file, argv, { timeout })]. *)
Record ExecRequest : Type := mkExec {
  file : jsstring;
  argv : list jsstring;
  timeout : Z                       (* milliseconds *)
}.

(** How the promise of [execFileAsync] settles: resolved with both output
    streams, or rejected (non-zero exit, time-out kill, failure to launch)
    with an error read as [{ stderr?: string; message?: string }]. *)
Inductive ExecResult : Type :=
| Resolved (stdout stderr : jsstring)
| Rejected (stderr message : option jsstring).

(** The local-time fields of a valid [Date]; [month] counts from 0. *)
Record DateFields : Type := mkDate {
  date : Z;
  month : Z;
  fullYear : Z;
  hours : Z;
  minutes : Z;
  seconds : Z
}.

Inductive JsDate : Type :=
| InvalidDate
| ValidDate (f : DateFields).

(** Where the engine raises a [TypeError] in this program. *)
Inductive TypeErrorSite : Type :=
| DestructureUndefined (property : jsstring)
                                  (* [const { property, ... } = undefined] *)
| ReplaceOfUndefined.             (* [undefined.replace] *)

Record Host : Type := mkHost {
  execFile : ExecRequest -> ExecResult;
  parseDate : jsstring -> JsDate;   (* [new Date(s)], in the host's zone *)
  typeErrorMessage : TypeErrorSite -> jsstring
}.

Inductive outcome (A : Type) : Type :=
| Returned (a : A)
| Threw (e : exn).

Arguments Returned {A} a.
Arguments Threw {A} e.

(** A run: the subprocess calls performed, in order, and the outcome. *)
Definition M (A : Type) : Type := (list ExecRequest * outcome A)%type.

Definition ret {A : Type} (a : A) : M A := ([], Returned a).

Definition throw {A : Type} (e : exn) : M A := ([], Threw e).

Definition bind {A B : Type} (m : M A) (k : A -> M B) : M B :=
  match m with
  | (calls, Returned a) => let (calls', r) := k a in (calls ++ calls', r)
  | (calls, Threw e) => (calls, Threw e)
  end.

(** [try { m } catch (error) { h error }]. *)
Definition try_catch {A : Type} (m : M A) (h : exn -> M A) : M A :=
  match m with
  | (calls, Threw e) => let (calls', r) := h e in (calls ++ calls', r)
  | (calls, Returned a) => (calls, Returned a)
  end.

Notation "x <- m ;; k" := (bind m (fun x => k))
  (at level 61, m at next level, right associativity).

Definition calls {A : Type} (m : M A) : list ExecRequest := fst m.
Definition result {A : Type} (m : M A) : outcome A := snd m.

(** The records the listing operations return. *)
Module CalendarInfo.
Record t : Type := mk { name : jsstring; id : jsstring }.
End CalendarInfo.

Module EventInfo.
Record t : Type := mk {
  id : jsstring;
  summary : jsstring;
  startDate : jsstring;
  endDate : jsstring;
  location : jsstring;
  description : jsstring;
  calendar : jsstring;
  isAllDay : bool
}.
End EventInfo.

(** The protocol's messages. *)
Module Property.
Record t : Type := mk {
  key : jsstring;
  type_ : jsstring;
  items : option jsstring;        (* [items.type] of an array property *)
  description : jsstring
}.
End Property.

Module Tool.
Record t : Type := mk {
  name : jsstring;
  description : jsstring;
  schemaType : jsstring;          (* [inputSchema.type] *)
  properties : list Property.t;   (* [inputSchema.properties] *)
  required : list jsstring        (* [inputSchema.required] *)
}.
End Tool.

(** The argument object of a call, seen through the handler's casts: each
    property the handler may read is missing or holds a value of the type
    the cast declares. *)
Module Args.
Record t : Type := mk {
  title : option jsstring;
  startDate : option jsstring;
  endDate : option jsstring;
  calendarName : option jsstring;
  location : option jsstring;
  description : option jsstring;
  isAllDay : option bool;
  alarms : option (list Z);       (* whole numbers of minutes *)
  eventSummary : option jsstring;
  newTitle : option jsstring
}.
End Args.

Module Request.
Record t : Type := mk {
  name : jsstring;
  arguments : option Args.t       (* [undefined] when the call has none *)
}.
End Request.

Module TextContent.
Record t : Type := mk { type_ : jsstring; text : jsstring }.
End TextContent.

Record CallToolResult : Type := mkResult { content : list TextContent.t }.

Record ListToolsResult : Type := mkTools { tools : list Tool.t }.

Section Server.

Variable host : Host.

(* ---------------------------------------------------------------- *)
(** ** The invoker *)

Definition launchScript (script : jsstring) : jsstring :=
  join nl
    [ [];
      lit "    tell application " ++ quoted (lit "Calendar");
      lit "      launch";
      lit "    end tell";
      lit "    delay 0.5";
      lit "    " ++ script;
      lit "  " ].

Definition osascript (script : jsstring) : ExecRequest :=
  {| file := lit "osascript";
     argv := [lit "-e"; launchScript script];
     timeout := 30000 |}.

Definition runAppleScript (script : jsstring) : M jsstring :=
  let request := osascript script in
  match execFile host request with
  | Resolved stdout _ => ([request], Returned (trim stdout))
  | Rejected stderr message =>
      ([request],
       Threw (McpError InternalError
                (or_else stderr
                   (or_else message (lit "AppleScript error")))))
  end.

(* ---------------------------------------------------------------- *)
(** ** Rendering arguments *)

(** [new Date(isoDate)]; [undefined] gives an invalid date. *)
Definition newDate (isoDate : option jsstring) : JsDate :=
  match isoDate with
  | Some s => parseDate host s
  | None => InvalidDate
  end.

Definition getter (field : DateFields -> Z) (d : JsDate) : number :=
  match d with
  | InvalidDate => NaN
  | ValidDate f => Int (field f)
  end.

Definition getDate := getter date.
Definition getMonth := getter month.
Definition getFullYear := getter fullYear.
Definition getHours := getter hours.
Definition getMinutes := getter minutes.

Definition formatDateForAppleScript (isoDate : option jsstring) : jsstring :=
  let d := newDate isoDate in
  let day := getDate d in
  let month := plus1 (getMonth d) in
  let year := getFullYear d in
  let hours := getHours d in
  let minutes := getMinutes d in
  toString day ++ lit "/" ++ toString month ++ lit "/" ++ toString year
  ++ lit " " ++ padStart 2 48 (toString hours)
  ++ lit ":" ++ padStart 2 48 (toString minutes) ++ lit ":00".

Definition escapeForAppleScript (str : jsstring) : jsstring :=
  replace_char 34 (bs ++ dq) (replace_char 92 (bs ++ bs) str).

(** [escapeForAppleScript(v)] where [v] may be [undefined] at run time:
    [undefined.replace] raises the engine's [TypeError]. *)
Definition escapeArgument (v : option jsstring) : M jsstring :=
  match v with
  | Some s => ret (escapeForAppleScript s)
  | None => throw (JsError (typeErrorMessage host ReplaceOfUndefined))
  end.

(* ---------------------------------------------------------------- *)
(** ** The translator: one function per operation *)

(** The reply of the calendar listing, parsed. *)
Definition parseCalendars (result : jsstring) : list CalendarInfo.t :=
  mapi (fun name index =>
          {| CalendarInfo.name := trim name;
             CalendarInfo.id := String_of_nat index |})
       (split (lit "~~~") result).

Definition listCalendars : M (list CalendarInfo.t) :=
  let script :=
    join nl
      [ [];
        lit "    tell application " ++ quoted (lit "Calendar");
        lit "      set calNames to name of calendars";
        lit "      set AppleScript's text item delimiters to "
          ++ quoted (lit "~~~");
        lit "      return calNames as text";
        lit "    end tell";
        lit "  " ] in
  result <- runAppleScript script ;;
  match result with
  | [] => ret []
  | _ => ret (parseCalendars result)
  end.

(** [parts[i] === "true"]. *)
Definition is_true_text (v : option jsstring) : bool :=
  match v with
  | Some s => Js.eqb s (lit "true")
  | None => false
  end.

(** One record of the event listing, at position [index]. *)
Definition parseEvent (item : jsstring) (index : nat) : EventInfo.t :=
  let parts := split (lit "|||") item in
  {| EventInfo.id := String_of_nat index;
     EventInfo.summary := or_else (nth_error parts 0) [];
     EventInfo.startDate := or_else (nth_error parts 1) [];
     EventInfo.endDate := or_else (nth_error parts 2) [];
     EventInfo.location := or_else (nth_error parts 3) [];
     EventInfo.description := [];
     EventInfo.calendar := or_else (nth_error parts 4) [];
     EventInfo.isAllDay := is_true_text (nth_error parts 5) |}.

(** The reply of the event listing, parsed. *)
Definition parseEvents (result : jsstring) : list EventInfo.t :=
  mapi parseEvent (split (lit "~~~") result).

Definition listEventsScript (startDate endDate calendarName : option jsstring)
  : jsstring :=
  let calendarPart :=
    match calendarName with
    | Some (c :: s) => lit "set cals to {calendar " ++ quoted (c :: s) ++ lit "}"
    | _ => lit "set cals to calendars"
    end in
  join nl
    [ [];
      lit "    tell application " ++ quoted (lit "Calendar");
      lit "      set startD to date "
        ++ quoted (formatDateForAppleScript startDate);
      lit "      set endD to date "
        ++ quoted (formatDateForAppleScript endDate);
      lit "      set eventList to {}";
      lit "      " ++ calendarPart;
      [];
      lit "      repeat with c in cals";
      lit "        try";
      lit "          set calEvents to (every event of c whose start date >= startD and start date <= endD)";
      lit "          repeat with e in calEvents";
      lit "            set eventSummary to summary of e";
      lit "            set eventStart to start date of e";
      lit "            set eventEnd to end date of e";
      lit "            set eventAllDay to allday event of e";
      lit "            set calName to name of c";
      lit "            set eventLoc to " ++ quoted [];
      lit "            try";
      lit "              set eventLoc to location of e";
      lit "            on error";
      lit "              set eventLoc to " ++ quoted [];
      lit "            end try";
      [];
      lit "            set eventInfo to eventSummary & " ++ quoted (lit "|||")
        ++ lit " & (eventStart as string) & " ++ quoted (lit "|||")
        ++ lit " & (eventEnd as string) & " ++ quoted (lit "|||")
        ++ lit " & eventLoc & " ++ quoted (lit "|||")
        ++ lit " & calName & " ++ quoted (lit "|||")
        ++ lit " & eventAllDay";
      lit "            set end of eventList to eventInfo";
      lit "          end repeat";
      lit "        end try";
      lit "      end repeat";
      [];
      lit "      set AppleScript's text item delimiters to "
        ++ quoted (lit "~~~");
      lit "      return eventList as text";
      lit "    end tell";
      lit "  " ].

Definition listEvents (startDate endDate calendarName : option jsstring)
  : M (list EventInfo.t) :=
  let script := listEventsScript startDate endDate calendarName in
  result <- runAppleScript script ;;
  match result with
  | [] => ret []
  | _ => ret (parseEvents result)
  end.

(** The script of [createEvent], given the escaped title. *)
Definition createEventScript (escapedTitle : jsstring)
           (startDate endDate calendarName location
              description : option jsstring)
           (isAllDay : option bool) (alarms : option (list Z)) : jsstring :=
  let targetCalendar := or_else calendarName (lit "Kalender") in
  let locationProp :=
    match location with
    | Some (c :: s) =>
        lit ", location:" ++ quoted (escapeForAppleScript (c :: s))
    | _ => []
    end in
  let descProp :=
    match description with
    | Some (c :: s) =>
        lit ", description:" ++ quoted (escapeForAppleScript (c :: s))
    | _ => []
    end in
  let allDayProp :=
    match isAllDay with
    | Some true => lit ", allday event:true"
    | _ => []
    end in
  let alarmCommands :=
    match alarms with
    | Some (m :: ms) =>
        let alarmStatements :=
          join (nl ++ lit "        ")
            (List.map
               (fun minutes =>
                  lit "make new display alarm at end of display alarms of newEvent with properties {trigger interval:"
                  ++ String_of_Z minutes ++ lit "}")
               (m :: ms)) in
        nl ++ lit "        " ++ alarmStatements
    | _ => []
    end in
  join nl
    [ [];
      lit "    tell application " ++ quoted (lit "Calendar");
      lit "      tell calendar "
        ++ quoted (escapeForAppleScript targetCalendar);
      lit "        set newEvent to make new event with properties {summary:"
        ++ quoted escapedTitle
        ++ lit ", start date:date "
        ++ quoted (formatDateForAppleScript startDate)
        ++ lit ", end date:date "
        ++ quoted (formatDateForAppleScript endDate)
        ++ allDayProp ++ locationProp ++ descProp ++ lit "}"
        ++ alarmCommands;
      lit "        return " ++ quoted (lit "created");
      lit "      end tell";
      lit "    end tell";
      lit "  " ].

Definition createEvent (title startDate endDate calendarName location
                          description : option jsstring)
           (isAllDay : option bool) (alarms : option (list Z))
  : M (option jsstring) :=
  escapedTitle <- escapeArgument title ;;
  let script :=
    createEventScript escapedTitle startDate endDate calendarName location
      description isAllDay alarms in
  _ <- runAppleScript script ;;
  ret title.

(** The assignment statements [updateEvent] pushes, in order. *)
Definition setProperties (newTitle startDate endDate location
                            description : option jsstring) : list jsstring :=
  let setProperties := [] in
  let setProperties :=
    match newTitle with
    | Some (c :: s) =>
        setProperties
        ++ [lit "set summary of targetEvent to "
            ++ quoted (escapeForAppleScript (c :: s))]
    | _ => setProperties
    end in
  let setProperties :=
    match startDate with
    | Some (c :: s) =>
        setProperties
        ++ [lit "set start date of targetEvent to date "
            ++ quoted (formatDateForAppleScript (Some (c :: s)))]
    | _ => setProperties
    end in
  let setProperties :=
    match endDate with
    | Some (c :: s) =>
        setProperties
        ++ [lit "set end date of targetEvent to date "
            ++ quoted (formatDateForAppleScript (Some (c :: s)))]
    | _ => setProperties
    end in
  let setProperties :=
    match location with
    | Some s =>
        setProperties
        ++ [lit "set location of targetEvent to "
            ++ quoted (escapeForAppleScript s)]
    | None => setProperties
    end in
  let setProperties :=
    match description with
    | Some s =>
        setProperties
        ++ [lit "set description of targetEvent to "
            ++ quoted (escapeForAppleScript s)]
    | None => setProperties
    end in
  setProperties.

(** The script of [updateEvent], given the escaped lookup key. *)
Definition updateEventScript (escapedCalendar escapedSummary : jsstring)
           (setProperties : list jsstring) : jsstring :=
  join nl
    [ [];
      lit "    tell application " ++ quoted (lit "Calendar");
      lit "      tell calendar " ++ quoted escapedCalendar;
      lit "        set targetEvent to (first event whose summary is "
        ++ quoted escapedSummary ++ lit ")";
      lit "        " ++ join (nl ++ lit "        ") setProperties;
      lit "        return " ++ quoted (lit "success");
      lit "      end tell";
      lit "    end tell";
      lit "  " ].

Definition updateEvent (eventSummary calendarName newTitle startDate endDate
                          location description : option jsstring) : M unit :=
  let setProperties :=
    setProperties newTitle startDate endDate location description in
  match setProperties with
  | [] => ret tt
  | _ =>
      escapedCalendar <- escapeArgument calendarName ;;
      escapedSummary <- escapeArgument eventSummary ;;
      let script :=
        updateEventScript escapedCalendar escapedSummary setProperties in
      _ <- runAppleScript script ;;
      ret tt
  end.

(** The script of [deleteEvent], given the escaped lookup key. *)
Definition deleteEventScript (escapedCalendar escapedSummary : jsstring)
  : jsstring :=
  join nl
    [ [];
      lit "    tell application " ++ quoted (lit "Calendar");
      lit "      tell calendar " ++ quoted escapedCalendar;
      lit "        set targetEvent to (first event whose summary is "
        ++ quoted escapedSummary ++ lit ")";
      lit "        delete targetEvent";
      lit "        return " ++ quoted (lit "success");
      lit "      end tell";
      lit "    end tell";
      lit "  " ].

Definition deleteEvent (eventSummary calendarName : option jsstring)
  : M unit :=
  escapedCalendar <- escapeArgument calendarName ;;
  escapedSummary <- escapeArgument eventSummary ;;
  let script := deleteEventScript escapedCalendar escapedSummary in
  _ <- runAppleScript script ;;
  ret tt.

(* ---------------------------------------------------------------- *)
(** ** The registry *)

Definition stringProperty (key description : jsstring) : Property.t :=
  Property.mk key (lit "string") None description.

Definition listToolsHandler : M ListToolsResult :=
  ret {| tools :=
    [ {| Tool.name := lit "list_calendars";
         Tool.description :=
           lit "List all available calendars including iCloud, local, and subscribed calendars.";
         Tool.schemaType := lit "object";
         Tool.properties := [];
         Tool.required := [] |};
      {| Tool.name := lit "list_events";
         Tool.description :=
           lit "List calendar events within a date range. Can filter by specific calendar.";
         Tool.schemaType := lit "object";
         Tool.properties :=
           [ stringProperty (lit "startDate")
               (lit "Start date in ISO8601 format (e.g., 2024-01-15T00:00:00Z)");
             stringProperty (lit "endDate")
               (lit "End date in ISO8601 format (e.g., 2024-01-31T23:59:59Z)");
             stringProperty (lit "calendarName")
               (lit "Optional: Filter events by calendar name. If not provided, returns events from all calendars.") ];
         Tool.required := [lit "startDate"; lit "endDate"] |};
      {| Tool.name := lit "create_event";
         Tool.description :=
           lit "Create a new calendar event. Specify title, start/end dates, and optionally calendar, location, and description.";
         Tool.schemaType := lit "object";
         Tool.properties :=
           [ stringProperty (lit "title") (lit "Event title");
             stringProperty (lit "startDate")
               (lit "Start date in ISO8601 format (e.g., 2024-01-15T10:00:00Z)");
             stringProperty (lit "endDate")
               (lit "End date in ISO8601 format (e.g., 2024-01-15T11:00:00Z)");
             stringProperty (lit "calendarName")
               (lit "Optional: Calendar name to create event in. Uses default calendar if not specified.");
             Property.mk (lit "isAllDay") (lit "boolean") None
               (lit "Optional: Whether this is an all-day event");
             stringProperty (lit "location") (lit "Optional: Event location");
             stringProperty (lit "description")
               (lit "Optional: Event description");
             Property.mk (lit "alarms") (lit "array") (Some (lit "number"))
               (lit "Optional: Array of alarm times in minutes before the event. Negative values for before event (e.g., -15 for 15 minutes before, -60 for 1 hour before). Use -1440 for 1 day before.") ];
         Tool.required := [lit "title"; lit "startDate"; lit "endDate"] |};
      {| Tool.name := lit "update_event";
         Tool.description :=
           lit "Update an existing calendar event by its summary/title and calendar name. Only specified fields will be updated.";
         Tool.schemaType := lit "object";
         Tool.properties :=
           [ stringProperty (lit "eventSummary")
               (lit "The current event title/summary to find");
             stringProperty (lit "calendarName")
               (lit "The calendar name where the event is located");
             stringProperty (lit "newTitle") (lit "Optional: New event title");
             stringProperty (lit "startDate")
               (lit "Optional: New start date in ISO8601 format");
             stringProperty (lit "endDate")
               (lit "Optional: New end date in ISO8601 format");
             stringProperty (lit "location")
               (lit "Optional: New event location");
             stringProperty (lit "description")
               (lit "Optional: New event description") ];
         Tool.required := [lit "eventSummary"; lit "calendarName"] |};
      {| Tool.name := lit "delete_event";
         Tool.description :=
           lit "Delete a calendar event by its summary/title and calendar name.";
         Tool.schemaType := lit "object";
         Tool.properties :=
           [ stringProperty (lit "eventSummary")
               (lit "The event title/summary to delete");
             stringProperty (lit "calendarName")
               (lit "The calendar name where the event is located") ];
         Tool.required := [lit "eventSummary"; lit "calendarName"] |} ] |}.

(* ---------------------------------------------------------------- *)
(** ** The call handler *)

Definition calendarJson (c : CalendarInfo.t) : JSON.value :=
  JSON.Obj [ (lit "name", JSON.Str (CalendarInfo.name c));
             (lit "id", JSON.Str (CalendarInfo.id c)) ].

Definition eventJson (e : EventInfo.t) : JSON.value :=
  JSON.Obj [ (lit "id", JSON.Str (EventInfo.id e));
             (lit "summary", JSON.Str (EventInfo.summary e));
             (lit "startDate", JSON.Str (EventInfo.startDate e));
             (lit "endDate", JSON.Str (EventInfo.endDate e));
             (lit "location", JSON.Str (EventInfo.location e));
             (lit "description", JSON.Str (EventInfo.description e));
             (lit "calendar", JSON.Str (EventInfo.calendar e));
             (lit "isAllDay", JSON.Bool (EventInfo.isAllDay e)) ].

(** [{ content: [{ type: "text", text: JSON.stringify(v, null, 2) }] }]. *)
Definition textResult (v : JSON.value) : CallToolResult :=
  {| content := [ {| TextContent.type_ := lit "text";
                     TextContent.text := JSON.stringify v |} ] |}.

(** [{ success: true, message, <key> }], [key] bound by shorthand to a
    string that may be [undefined]. *)
Definition successObject (message key : jsstring) (v : option jsstring)
  : JSON.value :=
  JSON.object [ (lit "success", Some (JSON.Bool true));
                (lit "message", Some (JSON.Str message));
                (key, option_map JSON.Str v) ].

(** [const { first, ... } = args]: reading a property of [undefined]
    raises. *)
Definition destructure (first : jsstring) (args : option Args.t) : M Args.t :=
  match args with
  | Some a => ret a
  | None => throw (JsError (typeErrorMessage host (DestructureUndefined first)))
  end.

Definition callToolHandler (request : Request.t) : M CallToolResult :=
  let name := Request.name request in
  let args := Request.arguments request in
  try_catch
    (if Js.eqb name (lit "list_calendars") then
       calendars <- listCalendars ;;
       ret (textResult (JSON.Arr (List.map calendarJson calendars)))
     else if Js.eqb name (lit "list_events") then
       a <- destructure (lit "startDate") args ;;
       events <- listEvents (Args.startDate a) (Args.endDate a)
                   (Args.calendarName a) ;;
       ret (textResult (JSON.Arr (List.map eventJson events)))
     else if Js.eqb name (lit "create_event") then
       a <- destructure (lit "title") args ;;
       eventId <- createEvent (Args.title a) (Args.startDate a)
                    (Args.endDate a) (Args.calendarName a) (Args.location a)
                    (Args.description a) (Args.isAllDay a) (Args.alarms a) ;;
       ret (textResult
              (successObject (lit "Event created") (lit "eventId") eventId))
     else if Js.eqb name (lit "update_event") then
       a <- destructure (lit "eventSummary") args ;;
       _ <- updateEvent (Args.eventSummary a) (Args.calendarName a)
              (Args.newTitle a) (Args.startDate a) (Args.endDate a)
              (Args.location a) (Args.description a) ;;
       ret (textResult
              (successObject (lit "Event updated") (lit "eventSummary")
                 (Args.eventSummary a)))
     else if Js.eqb name (lit "delete_event") then
       a <- destructure (lit "eventSummary") args ;;
       _ <- deleteEvent (Args.eventSummary a) (Args.calendarName a) ;;
       ret (textResult
              (successObject (lit "Event deleted") (lit "eventSummary")
                 (Args.eventSummary a)))
     else
       throw (McpError MethodNotFound (lit "Unknown tool: " ++ name)))
    (fun error =>
       match error with
       | McpError _ _ => throw error
       | JsError message => throw (McpError InternalError message)
       | NonError => throw (McpError InternalError (lit "Unknown error"))
       end).

End Server.

(* ================================================================== *)
(** ** Vocabulary of the statements *)

(** The names the registry advertises. *)
Definition registeredNames : list jsstring :=
  [ lit "list_calendars"; lit "list_events"; lit "create_event";
    lit "update_event"; lit "delete_event" ].

(** The properties of a tool's schema that are not required. *)
Definition optionalKeys (t : Tool.t) : list jsstring :=
  filter (fun k => negb (existsb (Js.eqb k) (Tool.required t)))
         (List.map Property.key (Tool.properties t)).

Definition propertyTypes (t : Tool.t) : list (jsstring * jsstring) :=
  List.map (fun p => (Property.key p, Property.type_ p)) (Tool.properties t).

(** How AppleScript reads a string literal, from just after the opening
    quote: a backslash takes the next character with it, which must be one
    of [\], the double quote, [n], [r] and [t]; the first quote not taken
    this way closes the literal.  The result is the value of the literal
    and the script text after the closing quote; [None] when the text is
    no literal (it is never closed, or a backslash is followed by another
    character). *)
Module AppleScript.

Definition unescapeUnit (c : N) : option N :=
  if N.eqb c 92 then Some 92%N
  else if N.eqb c 34 then Some 34%N
  else if N.eqb c 110 then Some 10%N
  else if N.eqb c 114 then Some 13%N
  else if N.eqb c 116 then Some 9%N
  else None.

Definition consValue (c : option N) (r : option (jsstring * jsstring))
  : option (jsstring * jsstring) :=
  match c, r with
  | Some c, Some (v, rest) => Some (c :: v, rest)
  | _, _ => None
  end.

Fixpoint readLiteral (s : jsstring) : option (jsstring * jsstring) :=
  match s with
  | [] => None
  | c :: s' =>
      if N.eqb c 34 then Some ([], s')
      else if N.eqb c 92 then
        match s' with
        | [] => None
        | d :: s'' => consValue (unescapeUnit d) (readLiteral s'')
        end
      else consValue (Some c) (readLiteral s')
  end.

End AppleScript.

(** What [escapeForAppleScript] does to one character, in one pass. *)
Definition escapeUnit (c : N) : jsstring :=
  if N.eqb c 92 then bs ++ bs
  else if N.eqb c 34 then bs ++ dq
  else [c].

(** A number below one hundred, as two decimal digits. *)
Definition twoDigits (n : Z) : jsstring :=
  [ digit_code (Z.to_N (n / 10)); digit_code (Z.to_N (n mod 10)) ].

(** The text [day/month/year hour:minute:<last>] of a date's fields. *)
Definition dayMonthYear (f : DateFields) (last : jsstring) : jsstring :=
  String_of_Z (date f) ++ lit "/" ++ String_of_Z (month f + 1) ++ lit "/"
  ++ String_of_Z (fullYear f) ++ lit " " ++ twoDigits (hours f) ++ lit ":"
  ++ twoDigits (minutes f) ++ lit ":" ++ last.

(** Which optional fields of an update count as supplied. *)
Definition isDefined (v : option jsstring) : bool :=
  match v with
  | Some _ => true
  | None => false
  end.

Definition anySupplied (newTitle startDate endDate location
                          description : option jsstring) : bool :=
  truthy newTitle || truthy startDate || truthy endDate
  || isDefined location || isDefined description.

(** The subprocess call of [create_event] for a present title, and the
    result the handler builds after it. *)
Definition createRequest (host : Host) (title : jsstring) (a : Args.t)
  : ExecRequest :=
  osascript
    (createEventScript host (escapeForAppleScript title) (Args.startDate a)
       (Args.endDate a) (Args.calendarName a) (Args.location a)
       (Args.description a) (Args.isAllDay a) (Args.alarms a)).

Definition createdResult (title : jsstring) : CallToolResult :=
  textResult
    (JSON.Obj [ (lit "success", JSON.Bool true);
                (lit "message", JSON.Str (lit "Event created"));
                (lit "eventId", JSON.Str title) ]).

(** The subprocess call of [list_events]. *)
Definition listRequest (host : Host) (a : Args.t) : ExecRequest :=
  osascript
    (listEventsScript host (Args.startDate a) (Args.endDate a)
       (Args.calendarName a)).

(** *** Sample hosts, for the examples *)

Module Sample.

(** A [Date] constructor that knows three date-times written without a
    zone, which ECMAScript reads as local time. *)
Definition dates : list (jsstring * DateFields) :=
  [ (lit "2024-03-01T09:00:00", mkDate 1 2 2024 9 0 0);
    (lit "2024-03-01T09:15:00", mkDate 1 2 2024 9 15 0);
    (lit "2024-03-01T09:00:30", mkDate 1 2 2024 9 0 30) ].

Fixpoint lookup (l : list (jsstring * DateFields)) (s : jsstring) : JsDate :=
  match l with
  | [] => InvalidDate
  | (k, f) :: l' => if Js.eqb k s then ValidDate f else lookup l' s
  end.

(** The messages of V8. *)
Definition messages (site : TypeErrorSite) : jsstring :=
  match site with
  | DestructureUndefined property =>
      lit "Cannot destructure property '" ++ property
      ++ lit "' of 'args' as it is undefined."
  | ReplaceOfUndefined =>
      lit "Cannot read properties of undefined (reading 'replace')"
  end.

(** A host whose subprocess always settles as [answer]. *)
Definition host (answer : ExecResult) : Host :=
  {| execFile := fun _ => answer;
     parseDate := lookup dates;
     typeErrorMessage := messages |}.

Definition standup : Args.t :=
  {| Args.title := Some (lit "Standup");
     Args.startDate := Some (lit "2024-03-01T09:00:00");
     Args.endDate := Some (lit "2024-03-01T09:15:00");
     Args.calendarName := Some (lit "Work");
     Args.location := None;
     Args.description := None;
     Args.isAllDay := None;
     Args.alarms := None;
     Args.eventSummary := None;
     Args.newTitle := None |}.

End Sample.

(** *** Vocabulary of the further properties *)

(** The text of the internal error raised for a failed subprocess. *)
Definition failureText (stderr message : option jsstring) : jsstring :=
  match stderr with
  | Some (c :: s) => c :: s
  | _ =>
      match message with
      | Some (c :: s) => c :: s
      | None | Some [] => lit "AppleScript error"
      end
  end.

(** A run made of one subprocess call: on success the result is computed
    from the trimmed output, on failure the internal error is raised. *)
Definition settled {A : Type} (host : Host) (request : ExecRequest)
           (k : jsstring -> A) : M A :=
  match execFile host request with
  | Resolved stdout _ => ([request], Returned (k (trim stdout)))
  | Rejected stderr message =>
      ([request], Threw (McpError InternalError (failureText stderr message)))
  end.

(** The subprocess call of [list_calendars]. *)
Definition calendarsRequest : ExecRequest :=
  osascript
    (join nl
       [ [];
         lit "    tell application " ++ quoted (lit "Calendar");
         lit "      set calNames to name of calendars";
         lit "      set AppleScript's text item delimiters to "
           ++ quoted (lit "~~~");
         lit "      return calNames as text";
         lit "    end tell";
         lit "  " ]).

(** The subprocess calls of [update_event] and [delete_event] for a lookup
    key that is present. *)
Definition updateRequest (host : Host) (eventSummary calendarName : jsstring)
           (a : Args.t) : ExecRequest :=
  osascript
    (updateEventScript (escapeForAppleScript calendarName)
       (escapeForAppleScript eventSummary)
       (setProperties host (Args.newTitle a) (Args.startDate a)
          (Args.endDate a) (Args.location a) (Args.description a))).

Definition deleteRequest (eventSummary calendarName : jsstring)
  : ExecRequest :=
  osascript
    (deleteEventScript (escapeForAppleScript calendarName)
       (escapeForAppleScript eventSummary)).

(** The results of the listing operations, from the trimmed output. *)
Definition calendarsResult (output : jsstring) : CallToolResult :=
  textResult
    (JSON.Arr
       (List.map calendarJson
          (match output with
           | [] => []
           | _ => parseCalendars output
           end))).

Definition eventsResult (output : jsstring) : CallToolResult :=
  textResult
    (JSON.Arr
       (List.map eventJson
          (match output with
           | [] => []
           | _ => parseEvents output
           end))).

(** The internal error into which the handler turns the engine's
    [TypeError] at [site]. *)
Definition typeErrorRun {A : Type} (host : Host) (site : TypeErrorSite)
  : M A :=
  ([], Threw (McpError InternalError (typeErrorMessage host site))).

(** Whether [update_event] has a field that counts as supplied. *)
Definition updateSupplied (a : Args.t) : bool :=
  anySupplied (Args.newTitle a) (Args.startDate a) (Args.endDate a)
    (Args.location a) (Args.description a).

(** A text free of the double quote and of the backslash. *)
Definition plain (s : jsstring) : Prop :=
  forall c, In c s -> c <> 34%N /\ c <> 92%N.

Definition isSpecial (c : N) : bool := N.eqb c 34 || N.eqb c 92.

(** [script] holds, right after the text [tag], a double-quoted piece whose
    inside is [body] and after whose closing quote [post] follows. *)
Definition quotedAt (script tag body post : jsstring) : Prop :=
  exists pre, script = pre ++ tag ++ dq ++ body ++ dq ++ post.

(** [script] holds, right after [tag], a string literal that AppleScript
    reads as [value], closed by the quote that the template wrote. *)
Definition literalValue (script tag value : jsstring) : Prop :=
  exists body post,
    quotedAt script tag body post
    /\ AppleScript.readLiteral (body ++ dq ++ post) = Some (value, post).

(** What the listing script sends back for one event: the fields joined by
    [|||], the all-day flag as [true] or [false]; and for all the events:
    the lines joined by [~~~]. *)
Definition eventLine (e : EventInfo.t) : jsstring :=
  join (lit "|||")
    [ EventInfo.summary e; EventInfo.startDate e; EventInfo.endDate e;
      EventInfo.location e; EventInfo.calendar e;
      if EventInfo.isAllDay e then lit "true" else lit "false" ].

Definition eventsReply (events : list EventInfo.t) : jsstring :=
  join (lit "~~~") (List.map eventLine events).

(** The fields of an event hold neither [~] nor [|]. *)
Definition cleanText (s : jsstring) : Prop :=
  ~ In 126%N s /\ ~ In 124%N s.

Definition cleanEvent (e : EventInfo.t) : Prop :=
  cleanText (EventInfo.summary e) /\ cleanText (EventInfo.startDate e)
  /\ cleanText (EventInfo.endDate e) /\ cleanText (EventInfo.location e)
  /\ cleanText (EventInfo.calendar e).

(** The arguments of [create_event] with every value that the function
    treats as missing replaced by what it uses instead. *)
Definition normalizeCreate (a : Args.t) : Args.t :=
  {| Args.title := Args.title a;
     Args.startDate := Args.startDate a;
     Args.endDate := Args.endDate a;
     Args.calendarName := Some (or_else (Args.calendarName a) (lit "Kalender"));
     Args.location := if truthy (Args.location a) then Args.location a
                      else None;
     Args.description := if truthy (Args.description a)
                         then Args.description a else None;
     Args.isAllDay := match Args.isAllDay a with
                      | Some true => Some true
                      | _ => None
                      end;
     Args.alarms := match Args.alarms a with
                    | Some (m :: ms) => Some (m :: ms)
                    | _ => None
                    end;
     Args.eventSummary := Args.eventSummary a;
     Args.newTitle := Args.newTitle a |}.

(* ================================================================== *)
(** ** Basic facts *)

Lemma eqb_eq (a b : jsstring) : Js.eqb a b = true <-> a = b.
Proof.
  revert b; induction a as [|x a IH]; intros [|y b]; simpl;
    try (split; [discriminate | discriminate]); try tauto.
  rewrite andb_true_iff, N.eqb_eq, IH.
  split; [intros [-> ->]; reflexivity | intros H; inversion H; auto].
Qed.

Lemma eqb_refl (a : jsstring) : Js.eqb a a = true.
Proof. apply eqb_eq; reflexivity. Qed.

Lemma eqb_neq (a b : jsstring) : a <> b -> Js.eqb a b = false.
Proof.
  intros H; destruct (Js.eqb a b) eqn:E; [|reflexivity].
  apply eqb_eq in E; contradiction.
Qed.

Lemma or_else_nth (parts : list jsstring) (k : nat) :
  or_else (nth_error parts k) [] = nth k parts [].
Proof.
  revert k; induction parts as [|p parts IH]; intros [|k]; simpl; auto.
  destruct p; reflexivity.
Qed.

Lemma is_true_text_nth (parts : list jsstring) (k : nat) :
  is_true_text (nth_error parts k) = Js.eqb (nth k parts []) (lit "true").
Proof.
  revert k; induction parts as [|p parts IH]; intros [|k]; simpl; auto.
Qed.

Lemma mapi_from_length {A B : Type} (f : A -> nat -> B) (l : list A) :
  forall i, List.length (mapi_from f i l) = List.length l.
Proof. induction l as [|x l IH]; intros i; simpl; [|rewrite IH]; reflexivity. Qed.

Lemma mapi_from_nth {A B : Type} (f : A -> nat -> B) (l : list A) :
  forall i k x, nth_error l k = Some x ->
                nth_error (mapi_from f i l) k = Some (f x (i + k)).
Proof.
  induction l as [|y l IH]; intros i [|k] x H; simpl in *; try discriminate.
  - inversion H; subst; rewrite Nat.add_0_r; reflexivity.
  - rewrite (IH (S i) k x H), Nat.add_succ_r; reflexivity.
Qed.

(** *** [split] cuts at the separators, and [join] puts them back *)

Lemma split_from_not_nil (sep : jsstring) (s : jsstring) :
  forall skip cur, split_from sep skip cur s <> [].
Proof.
  induction s as [|c s IH]; intros skip cur; simpl; [discriminate|].
  destruct skip; [|apply IH].
  destruct (isPrefix sep (c :: s)); [discriminate | apply IH].
Qed.

Lemma join_cons (sep x : jsstring) (l : list jsstring) :
  l <> [] -> join sep (x :: l) = x ++ sep ++ join sep l.
Proof. destruct l; [contradiction | reflexivity]. Qed.

Lemma isPrefix_skipn (p s : jsstring) :
  isPrefix p s = true -> s = p ++ skipn (List.length p) s.
Proof.
  revert s; induction p as [|x p IH]; intros s H; [reflexivity|].
  destruct s as [|y s]; [discriminate H|].
  simpl in H; apply andb_true_iff in H; destruct H as [Hxy Hp].
  apply N.eqb_eq in Hxy; subst y; simpl; f_equal; apply IH, Hp.
Qed.

Lemma join_split_from (sep : jsstring) (s : jsstring) :
  sep <> [] ->
  forall skip cur,
    join sep (split_from sep skip cur s) = rev cur ++ skipn skip s.
Proof.
  intros Hsep; induction s as [|c s IH]; intros skip cur.
  - destruct skip; simpl; rewrite app_nil_r; reflexivity.
  - destruct skip as [|k]; [|apply IH].
    cbn [split_from skipn].
    destruct (isPrefix sep (c :: s)) eqn:Hp.
    + rewrite join_cons by apply split_from_not_nil.
      rewrite IH; cbn [rev app].
      apply isPrefix_skipn in Hp.
      destruct sep as [|x sep']; [contradiction|].
      f_equal; rewrite Hp at 1; cbn [List.length skipn Nat.sub].
      rewrite ?Nat.sub_0_r; reflexivity.
    + rewrite IH; cbn [rev skipn]; rewrite <- app_assoc; reflexivity.
Qed.

Lemma join_split (sep s : jsstring) :
  sep <> [] -> join sep (split sep s) = s.
Proof.
  intros Hsep; unfold split.
  destruct sep as [|x sep']; [contradiction|].
  apply (join_split_from s Hsep 0 []).
Qed.

(** The two passes of [escapeForAppleScript] amount to one pass. *)
Lemma escape_one_pass (str : jsstring) :
  escapeForAppleScript str = flat_map escapeUnit str.
Proof.
  unfold escapeForAppleScript, replace_char.
  induction str as [|c str IH]; [reflexivity|].
  cbn [flat_map]; rewrite flat_map_app, IH; f_equal.
  unfold escapeUnit.
  destruct (N.eqb c 92) eqn:E92; [reflexivity|].
  cbn [flat_map]; rewrite app_nil_r.
  destruct (N.eqb c 34); reflexivity.
Qed.

Lemma readLiteral_escaped (str rest : jsstring) :
  AppleScript.readLiteral (flat_map escapeUnit str ++ dq ++ rest)
  = Some (str, rest).
Proof.
  induction str as [|c str IH]; [reflexivity|].
  cbn [flat_map]; rewrite <- app_assoc.
  set (tail := flat_map escapeUnit str ++ dq ++ rest) in *.
  unfold escapeUnit.
  destruct (N.eqb c 92) eqn:E92.
  - apply N.eqb_eq in E92; subst c.
    change (AppleScript.readLiteral ((bs ++ bs) ++ tail))
      with (AppleScript.consValue (Some 92%N)
              (AppleScript.readLiteral tail)).
    rewrite IH; reflexivity.
  - destruct (N.eqb c 34) eqn:E34.
    + apply N.eqb_eq in E34; subst c.
      change (AppleScript.readLiteral ((bs ++ dq) ++ tail))
        with (AppleScript.consValue (Some 34%N)
                (AppleScript.readLiteral tail)).
      rewrite IH; reflexivity.
    + cbn [app AppleScript.readLiteral].
      rewrite E34, E92, IH; reflexivity.
Qed.

(** *** The handler, branch by branch *)

Lemma callTool_create_event (host : Host) (args : option Args.t) :
  callToolHandler host (Request.mk (lit "create_event") args)
  = match args with
    | None =>
        ([], Threw (McpError InternalError
                      (typeErrorMessage host
                         (DestructureUndefined (lit "title")))))
    | Some a =>
        match Args.title a with
        | None =>
            ([], Threw (McpError InternalError
                          (typeErrorMessage host ReplaceOfUndefined)))
        | Some title =>
            match execFile host (createRequest host title a) with
            | Resolved _ _ =>
                ([createRequest host title a],
                 Returned (createdResult title))
            | Rejected stderr message =>
                ([createRequest host title a],
                 Threw (McpError InternalError
                          (or_else stderr
                             (or_else message (lit "AppleScript error")))))
            end
        end
    end.
Proof.
  destruct args as [a|]; [|reflexivity].
  unfold callToolHandler, createEvent, runAppleScript, createRequest.
  cbn [Request.name Request.arguments].
  change (Js.eqb (lit "create_event") (lit "list_calendars")) with false.
  change (Js.eqb (lit "create_event") (lit "list_events")) with false.
  change (Js.eqb (lit "create_event") (lit "create_event")) with true.
  unfold destructure; cbn [bind ret]; cbv beta iota.
  destruct (Args.title a) as [title|]; [|reflexivity].
  cbn [escapeArgument bind ret]; cbv beta iota zeta.
  destruct (execFile host _); reflexivity.
Qed.

Lemma listEvents_run (host : Host) (a : Args.t) :
  listEvents host (Args.startDate a) (Args.endDate a) (Args.calendarName a)
  = match execFile host (listRequest host a) with
    | Resolved stdout _ =>
        ([listRequest host a],
         Returned (match trim stdout with
                   | [] => []
                   | _ => parseEvents (trim stdout)
                   end))
    | Rejected stderr message =>
        ([listRequest host a],
         Threw (McpError InternalError
                  (or_else stderr
                     (or_else message (lit "AppleScript error")))))
    end.
Proof.
  unfold listEvents, runAppleScript, listRequest; cbv zeta.
  destruct (execFile host _) as [out err|err msg]; [|reflexivity].
  cbn [bind]; destruct (trim out); reflexivity.
Qed.

Lemma callTool_list_events (host : Host) (a : Args.t) :
  callToolHandler host (Request.mk (lit "list_events") (Some a))
  = try_catch
      (events <- listEvents host (Args.startDate a) (Args.endDate a)
                   (Args.calendarName a) ;;
       ret (textResult (JSON.Arr (List.map eventJson events))))
      (fun error =>
         match error with
         | McpError _ _ => throw error
         | JsError message => throw (McpError InternalError message)
         | NonError => throw (McpError InternalError (lit "Unknown error"))
         end).
Proof.
  unfold callToolHandler.
  cbn [Request.name Request.arguments].
  change (Js.eqb (lit "list_events") (lit "list_calendars")) with false.
  change (Js.eqb (lit "list_events") (lit "list_events")) with true.
  unfold destructure; cbn [bind ret]; cbv beta iota.
  destruct (listEvents host _ _ _) as [cs [evs|e]]; reflexivity.
Qed.

(** No statement is pushed exactly when no field counts as supplied. *)
Lemma setProperties_nil (host : Host)
      (newTitle startDate endDate location description : option jsstring) :
  setProperties host newTitle startDate endDate location description = []
  <-> anySupplied newTitle startDate endDate location description = false.
Proof.
  unfold setProperties, anySupplied.
  destruct newTitle as [[|? ?]|], startDate as [[|? ?]|],
    endDate as [[|? ?]|], location as [?|], description as [?|];
    cbn [truthy isDefined orb app];
    (split; [intros H | intros H]; try reflexivity; try discriminate H).
Qed.

(* ================================================================== *)
(** ** The properties of the specification *)

(** C1.  A call whose operation name is none of the five registered names
    raises a method-not-found error, whatever its arguments are (also when
    it carries none), and it starts no subprocess.  The error is the
    [McpError] of the [default] branch, passed on unchanged by the [catch]
    block, so it never has the internal-error code. *)
Theorem unknown_tool_is_method_not_found (host : Host) (request : Request.t) :
  ~ In (Request.name request) registeredNames ->
  callToolHandler host request
  = ([], Threw (McpError MethodNotFound
                  (lit "Unknown tool: " ++ Request.name request))).
Proof.
  intros Hname. unfold callToolHandler.
  repeat match goal with
  | |- context [Js.eqb (Request.name request) ?n] =>
      rewrite (@eqb_neq (Request.name request) n)
        by (intros E; apply Hname; rewrite E; unfold registeredNames;
            simpl; tauto)
  end.
  reflexivity.
Qed.

Lemma unknown_tool_is_method_not_found_witness :
  callToolHandler (Sample.host (Rejected None None))
    (Request.mk (lit "send_invite") (Some Sample.standup))
  = ([], Threw (McpError MethodNotFound (lit "Unknown tool: send_invite"))).
Proof.
  apply (@unknown_tool_is_method_not_found
           (Sample.host (Rejected None None))
           (Request.mk (lit "send_invite") (Some Sample.standup))).
  unfold registeredNames; simpl.
  intros [H|[H|[H|[H|[H|[]]]]]]; discriminate H.
Defined.

(** C2.  [escapeForAppleScript] rewrites exactly the backslashes and the
    double quotes: a backslash becomes two backslashes, a double quote
    becomes backslash-quote, and every other character stays as it is.
    Hence, wherever a template puts the escaped text between double quotes
    (every template does so with [quoted]), reading the literal from just
    after its opening quote stops at the template's closing quote, not
    earlier: the value read is the original text and what follows is the
    rest of the script. *)
Theorem escapeForAppleScript_keeps_literal_closed (str : jsstring) :
  escapeForAppleScript str = flat_map escapeUnit str
  /\ (forall c, escapeUnit c
                = if N.eqb c 92 then [92; 92]%N
                  else if N.eqb c 34 then [92; 34]%N
                  else [c])
  /\ (forall rest,
         AppleScript.readLiteral (escapeForAppleScript str ++ dq ++ rest)
         = Some (str, rest))
  /\ (forall rest,
         exists body,
           quoted (escapeForAppleScript str) ++ rest = dq ++ body
           /\ AppleScript.readLiteral body = Some (str, rest)).
Proof.
  assert (H : forall rest,
             AppleScript.readLiteral (escapeForAppleScript str ++ dq ++ rest)
             = Some (str, rest)).
  { intros rest; rewrite escape_one_pass; apply readLiteral_escaped. }
  split; [apply escape_one_pass|].
  split; [reflexivity|].
  split; [exact H|].
  intros rest; exists (escapeForAppleScript str ++ dq ++ rest).
  split; [|apply H].
  unfold quoted; rewrite <- !app_assoc; reflexivity.
Qed.

(** C3.  [update_event] with [newTitle], [startDate], [endDate],
    [location] and [description] all absent starts no subprocess and
    returns the success result, for every event summary and calendar name
    (and whatever else the argument object holds). *)
Theorem update_event_without_fields_is_noop
        (host : Host) (eventSummary calendarName title : option jsstring)
        (isAllDay : option bool) (alarms : option (list Z)) :
  let args :=
    {| Args.title := title;
       Args.startDate := None;
       Args.endDate := None;
       Args.calendarName := calendarName;
       Args.location := None;
       Args.description := None;
       Args.isAllDay := isAllDay;
       Args.alarms := alarms;
       Args.eventSummary := eventSummary;
       Args.newTitle := None |} in
  updateEvent host eventSummary calendarName None None None None None
  = ([], Returned tt)
  /\ callToolHandler host (Request.mk (lit "update_event") (Some args))
     = ([], Returned
              (textResult
                 (JSON.object
                    [ (lit "success", Some (JSON.Bool true));
                      (lit "message", Some (JSON.Str (lit "Event updated")));
                      (lit "eventSummary",
                       option_map JSON.Str eventSummary) ]))).
Proof.
  split; reflexivity.
Qed.

(** C4.  The handler that lists the operations starts no subprocess and
    returns a fixed value that does not depend on the host: five tool
    descriptors, named [list_calendars], [list_events], [create_event],
    [update_event] and [delete_event] in this order, with the documented
    required and optional arguments; every schema is an object whose
    properties are strings, except the boolean [isAllDay] and the array
    of numbers [alarms]. *)
Theorem listTools_advertises_five_tools :
  exists r : ListToolsResult,
    listToolsHandler = ([], Returned r)
    /\ List.map Tool.name (tools r) = registeredNames
    /\ List.map Tool.required (tools r)
       = [ [];
           [lit "startDate"; lit "endDate"];
           [lit "title"; lit "startDate"; lit "endDate"];
           [lit "eventSummary"; lit "calendarName"];
           [lit "eventSummary"; lit "calendarName"] ]
    /\ List.map optionalKeys (tools r)
       = [ [];
           [lit "calendarName"];
           [lit "calendarName"; lit "isAllDay"; lit "location";
            lit "description"; lit "alarms"];
           [lit "newTitle"; lit "startDate"; lit "endDate"; lit "location";
            lit "description"];
           [] ]
    /\ (forall t k, In t (tools r) -> In k (Tool.required t) ->
                    In k (List.map Property.key (Tool.properties t)))
    /\ (forall t, In t (tools r) -> Tool.schemaType t = lit "object")
    /\ (forall t k ty, In t (tools r) -> In (k, ty) (propertyTypes t) ->
                       ty = lit "string"
                       \/ (k = lit "isAllDay" /\ ty = lit "boolean")
                       \/ (k = lit "alarms" /\ ty = lit "array")).
Proof.
  eexists; split; [reflexivity|].
  split; [reflexivity|].
  split; [reflexivity|].
  split; [reflexivity|].
  split; [|split].
  - intros t k Ht Hk; simpl in Ht.
    repeat (destruct Ht as [<-|Ht]; [simpl in Hk |- *; tauto|]).
    destruct Ht.
  - intros t Ht; simpl in Ht.
    repeat (destruct Ht as [<-|Ht]; [reflexivity|]).
    destruct Ht.
  - intros t k ty Ht Hp; simpl in Ht.
    repeat (destruct Ht as [<-|Ht];
            [simpl in Hp;
             repeat (destruct Hp as [Hp|Hp];
                     [inversion Hp; subst; auto|]);
             destruct Hp|]).
    destruct Ht.
Qed.

(** *** [trim] removes white space at both ends, and nothing else *)

Lemma trimStart_spec (s : jsstring) :
  exists pre, s = pre ++ trimStart s
              /\ forallb is_space pre = true
              /\ (forall c t, trimStart s = c :: t -> is_space c = false).
Proof.
  induction s as [|c s (pre & Hs & Hpre & Hhead)].
  - exists []; repeat split; intros; discriminate.
  - simpl; destruct (is_space c) eqn:E.
    + exists (c :: pre); simpl; rewrite E, Hpre, <- Hs; auto.
    + exists []; repeat split.
      intros c' t H; inversion H; subst; exact E.
Qed.

Lemma trimEnd_spec (s : jsstring) :
  exists post, s = trimEnd s ++ post
               /\ forallb is_space post = true
               /\ (forall t c, trimEnd s = t ++ [c] -> is_space c = false).
Proof.
  unfold trimEnd.
  destruct (trimStart_spec (rev s)) as (pre & Hs & Hpre & Hhead).
  exists (rev pre); repeat split.
  - rewrite <- rev_app_distr, <- Hs, rev_involutive; reflexivity.
  - rewrite forallb_forall in *; intros x Hx; apply Hpre, in_rev, Hx.
  - intros t c H.
    apply (f_equal (@rev N)) in H.
    rewrite rev_involutive, rev_app_distr in H; simpl in H.
    exact (Hhead _ _ H).
Qed.

Lemma trim_spec (s : jsstring) :
  exists pre post,
    s = pre ++ trim s ++ post
    /\ forallb is_space pre = true
    /\ forallb is_space post = true
    /\ (forall c t, trim s = c :: t -> is_space c = false)
    /\ (forall t c, trim s = t ++ [c] -> is_space c = false).
Proof.
  unfold trim.
  destruct (trimStart_spec s) as (pre & Hs & Hpre & Hhead).
  destruct (trimEnd_spec (trimStart s)) as (post & Ht & Hpost & Hlast).
  exists pre, post; repeat split; auto.
  - rewrite <- Ht; exact Hs.
  - intros c t H; rewrite H in Ht.
    exact (Hhead c (t ++ post) Ht).
Qed.

(** Hours and minutes are padded to the two digits of a clock. *)
Lemma padStart_twoDigits (n : Z) :
  (0 <= n < 60)%Z -> padStart 2 48 (String_of_Z n) = twoDigits n.
Proof.
  intros H.
  assert (L : (Z.to_nat n < 60)%nat) by lia.
  replace n with (Z.of_nat (Z.to_nat n)) by lia.
  revert L; generalize (Z.to_nat n) as k; intros k L.
  do 60 (destruct k as [|k]; [reflexivity|]).
  lia.
Qed.

(** C5 (as amended).  For a date-time string that the [Date] constructor
    accepts, [formatDateForAppleScript] renders the local day, month
    (counted from 1) and year in decimal, then the hour and the minute on
    two digits each, in the fixed order day/month/year hour:minute; the
    last field is always the text [00], whatever the seconds of the
    instant are. *)
Theorem formatDate_day_month_year_hour_minute
        (host : Host) (isoDate : jsstring) (f : DateFields) :
  parseDate host isoDate = ValidDate f ->
  (0 <= hours f < 24)%Z ->
  (0 <= minutes f < 60)%Z ->
  formatDateForAppleScript host (Some isoDate) = dayMonthYear f (lit "00").
Proof.
  intros Hparse Hh Hm.
  unfold formatDateForAppleScript, newDate; rewrite Hparse.
  unfold getDate, getMonth, getFullYear, getHours, getMinutes, getter,
    plus1, toString, dayMonthYear.
  rewrite !padStart_twoDigits by lia.
  reflexivity.
Qed.

Lemma formatDate_day_month_year_hour_minute_witness :
  formatDateForAppleScript (Sample.host (Rejected None None))
    (Some (lit "2024-03-01T09:15:00"))
  = dayMonthYear (mkDate 1 2 2024 9 15 0) (lit "00").
Proof.
  apply (@formatDate_day_month_year_hour_minute
           (Sample.host (Rejected None None))
           (lit "2024-03-01T09:15:00") (mkDate 1 2 2024 9 15 0)).
  - reflexivity.
  - simpl; lia.
  - simpl; lia.
Defined.

(** C5 (as stated, refuted).  The instant 2024-03-01 09:00:30 has second
    30, and it is rendered [1/3/2024 09:00:00]: the seconds of the instant
    do not appear in the text. *)
Lemma formatDate_seconds_not_rendered :
  let host := Sample.host (Rejected None None) in
  let isoDate := lit "2024-03-01T09:00:30" in
  let f := mkDate 1 2 2024 9 0 30 in
  parseDate host isoDate = ValidDate f
  /\ formatDateForAppleScript host (Some isoDate) = lit "1/3/2024 09:00:00"
  /\ dayMonthYear f (twoDigits (seconds f)) = lit "1/3/2024 09:00:30"
  /\ formatDateForAppleScript host (Some isoDate)
     <> dayMonthYear f (twoDigits (seconds f)).
Proof.
  repeat split; try reflexivity.
  vm_compute; discriminate.
Qed.

(** C6.  [runAppleScript] starts [osascript] exactly once, with a time
    limit of 30000 milliseconds.  When the subprocess succeeds the result
    is its standard output with the white space at both ends removed.
    When it fails (non-zero exit, time-out) the only thing raised is an
    internal error, whose text is the subprocess's standard error; when
    that is empty or missing, the failure's own message; and when that is
    empty or missing too, the fixed text [AppleScript error]. *)
Theorem runAppleScript_contract (host : Host) (script : jsstring) :
  let run := runAppleScript host script in
  let request := osascript script in
  file request = lit "osascript"
  /\ timeout request = 30000%Z
  /\ calls run = [request]
  /\ (forall stdout stderr,
         execFile host request = Resolved stdout stderr ->
         result run = Returned (trim stdout)
         /\ exists pre post,
              stdout = pre ++ trim stdout ++ post
              /\ forallb is_space pre = true
              /\ forallb is_space post = true
              /\ (forall c t, trim stdout = c :: t -> is_space c = false)
              /\ (forall t c, trim stdout = t ++ [c] -> is_space c = false))
  /\ (forall stderr message,
         execFile host request = Rejected (Some stderr) message ->
         stderr <> [] ->
         result run = Threw (McpError InternalError stderr))
  /\ (forall stderr message,
         execFile host request = Rejected stderr (Some message) ->
         stderr = None \/ stderr = Some [] ->
         message <> [] ->
         result run = Threw (McpError InternalError message))
  /\ (forall stderr message,
         execFile host request = Rejected stderr message ->
         stderr = None \/ stderr = Some [] ->
         message = None \/ message = Some [] ->
         result run
         = Threw (McpError InternalError (lit "AppleScript error")))
  /\ (forall e, result run = Threw e ->
                exists text, e = McpError InternalError text).
Proof.
  cbv zeta; unfold runAppleScript, calls, result.
  split; [reflexivity|]. split; [reflexivity|].
  destruct (execFile host (osascript script)) as [out err|err msg];
    (split; [reflexivity|]).
  - split; [intros ? ? H; inversion H; subst; split;
            [reflexivity | apply trim_spec]|].
    repeat split; intros; discriminate.
  - split; [intros; discriminate|].
    split; [|split; [|split]].
    + intros e m H Hne; inversion H; subst.
      destruct e; [contradiction|reflexivity].
    + intros e m H [He|He] Hne; inversion H; subst;
        (destruct m; [contradiction|reflexivity]).
    + intros e m H [He|He] [Hm|Hm]; inversion H; subst; reflexivity.
    + intros e H; inversion H; eauto.
Qed.

Lemma runAppleScript_contract_witness :
  let host :=
    Sample.host (Rejected (Some []) (Some (lit "Command failed: osascript"))) in
  result (runAppleScript host (lit "return 1"))
  = Threw (McpError InternalError (lit "Command failed: osascript")).
Proof.
  cbv zeta.
  refine (proj1 (proj2 (proj2 (proj2 (proj2 (proj2
           (@runAppleScript_contract
              (Sample.host
                 (Rejected (Some []) (Some (lit "Command failed: osascript"))))
              (lit "return 1")))))))
            (Some []) (lit "Command failed: osascript") _ _ _).
  - reflexivity.
  - right; reflexivity.
  - discriminate.
Defined.

(** C7.  A [create_event] call succeeds exactly when the request carries a
    title and the subprocess succeeds, and the success result then holds
    the object [{ success: true, message: "Event created", eventId }] whose
    [eventId] is the supplied title, as JSON text. *)
Theorem create_event_returns_title (host : Host) (args : option Args.t) :
  let run := callToolHandler host (Request.mk (lit "create_event") args) in
  (forall a title stdout stderr,
      args = Some a ->
      Args.title a = Some title ->
      execFile host (createRequest host title a) = Resolved stdout stderr ->
      run = ([createRequest host title a], Returned (createdResult title)))
  /\ (forall r,
         result run = Returned r ->
         exists a title stdout stderr,
           args = Some a
           /\ Args.title a = Some title
           /\ execFile host (createRequest host title a)
              = Resolved stdout stderr
           /\ r = createdResult title)
  /\ (forall title,
         content (createdResult title)
         = [ {| TextContent.type_ := lit "text";
                TextContent.text :=
                  join nl
                    [ lit "{";
                      lit "  " ++ quoted (lit "success") ++ lit ": true,";
                      lit "  " ++ quoted (lit "message") ++ lit ": "
                        ++ quoted (lit "Event created") ++ lit ",";
                      lit "  " ++ quoted (lit "eventId") ++ lit ": "
                        ++ JSON.quoteJSONString title;
                      lit "}" ] |} ]).
Proof.
  cbv zeta; rewrite callTool_create_event.
  split; [|split].
  - intros a title out err -> Ht Hx; rewrite Ht, Hx; reflexivity.
  - intros r H.
    destruct args as [a|]; [|discriminate H].
    destruct (Args.title a) as [title|] eqn:Ht; [|discriminate H].
    destruct (execFile host (createRequest host title a)) as [out err|e m]
      eqn:Hx; [|discriminate H].
    inversion H; subst.
    exists a, title, out, err; auto.
  - intros title; reflexivity.
Qed.

Lemma create_event_returns_title_witness :
  callToolHandler (Sample.host (Resolved (lit "created" ++ nl) []))
    (Request.mk (lit "create_event") (Some Sample.standup))
  = ([createRequest (Sample.host (Resolved (lit "created" ++ nl) []))
        (lit "Standup") Sample.standup],
     Returned (createdResult (lit "Standup")))
  /\ JSON.quoteJSONString (lit "Standup") = quoted (lit "Standup").
Proof.
  split; [|reflexivity].
  apply (proj1 (@create_event_returns_title
                  (Sample.host (Resolved (lit "created" ++ nl) []))
                  (Some Sample.standup))
           Sample.standup (lit "Standup") (lit "created" ++ nl) []);
    reflexivity.
Defined.

(** C8.  When the subprocess of [list_events] succeeds and its output is
    empty once trimmed, [listEvents] returns the empty sequence, and the
    handler returns the text [[]]: a result, not an error. *)
Theorem list_events_empty_reply
        (host : Host) (a : Args.t) (stdout stderr : jsstring) :
  execFile host (listRequest host a) = Resolved stdout stderr ->
  trim stdout = [] ->
  listEvents host (Args.startDate a) (Args.endDate a) (Args.calendarName a)
  = ([listRequest host a], Returned [])
  /\ callToolHandler host (Request.mk (lit "list_events") (Some a))
     = ([listRequest host a],
        Returned {| content := [ {| TextContent.type_ := lit "text";
                                    TextContent.text := lit "[]" |} ] |}).
Proof.
  intros Hx Ht.
  assert (E : listEvents host (Args.startDate a) (Args.endDate a)
                (Args.calendarName a)
              = ([listRequest host a], Returned [])).
  { rewrite listEvents_run, Hx, Ht; reflexivity. }
  split; [exact E|].
  rewrite callTool_list_events, E; reflexivity.
Qed.

Lemma list_events_empty_reply_witness :
  callToolHandler (Sample.host (Resolved (lit " " ++ nl) []))
    (Request.mk (lit "list_events") (Some Sample.standup))
  = ([listRequest (Sample.host (Resolved (lit " " ++ nl) [])) Sample.standup],
     Returned {| content := [ {| TextContent.type_ := lit "text";
                                 TextContent.text := lit "[]" |} ] |}).
Proof.
  apply (@list_events_empty_reply
           (Sample.host (Resolved (lit " " ++ nl) [])) Sample.standup
           (lit " " ++ nl) []); reflexivity.
Defined.

(** C9.  The parser of the [list_events] reply gives a result for every
    reply text.  The reply is cut into records at [~~~] and each record
    into fields at [|||]; the event at position [i] is read from record
    [i], a missing field counting as the empty text; its [description] is
    empty, its [id] is [i] in decimal, and its [isAllDay] is true exactly
    when the record has a sixth field and that field is the text [true].
    [listEvents] applies this parser to every non-empty trimmed output of
    a subprocess that succeeded, and returns what it gives. *)
Theorem parseEvents_total_and_positional (reply : jsstring) :
  let records := split (lit "~~~") reply in
  List.length (parseEvents reply) = List.length records
  /\ (forall i item,
         nth_error records i = Some item ->
         let fields := split (lit "|||") item in
         nth_error (parseEvents reply) i
         = Some {| EventInfo.id := String_of_nat i;
                   EventInfo.summary := nth 0 fields [];
                   EventInfo.startDate := nth 1 fields [];
                   EventInfo.endDate := nth 2 fields [];
                   EventInfo.location := nth 3 fields [];
                   EventInfo.description := [];
                   EventInfo.calendar := nth 4 fields [];
                   EventInfo.isAllDay :=
                     Js.eqb (nth 5 fields []) (lit "true") |})
  /\ (forall i e,
         nth_error (parseEvents reply) i = Some e ->
         EventInfo.description e = []
         /\ EventInfo.id e = String_of_nat i
         /\ (EventInfo.isAllDay e = true
             <-> exists item,
                 nth_error records i = Some item
                 /\ nth_error (split (lit "|||") item) 5 = Some (lit "true")))
  /\ (forall host a stdout stderr,
         execFile host (listRequest host a) = Resolved stdout stderr ->
         trim stdout <> [] ->
         listEvents host (Args.startDate a) (Args.endDate a)
           (Args.calendarName a)
         = ([listRequest host a], Returned (parseEvents (trim stdout)))).
Proof.
  cbv zeta.
  assert (Hnth : forall i item,
             nth_error (split (lit "~~~") reply) i = Some item ->
             nth_error (parseEvents reply) i = Some (parseEvent item i)).
  { intros i item H; unfold parseEvents, mapi.
    rewrite (mapi_from_nth parseEvent _ 0 i H); reflexivity. }
  split; [apply mapi_from_length|].
  split; [|split].
  - intros i item H; rewrite (Hnth i item H); unfold parseEvent.
    rewrite !or_else_nth, is_true_text_nth; reflexivity.
  - intros i e He.
    destruct (nth_error (split (lit "~~~") reply) i) as [item|] eqn:Hi.
    + rewrite (Hnth i item Hi) in He; inversion He; subst e; clear He.
      split; [reflexivity|]. split; [reflexivity|].
      unfold parseEvent; cbn [EventInfo.isAllDay].
      split.
      * intros H; exists item; split; [reflexivity|].
        destruct (nth_error (split (lit "|||") item) 5) as [s|];
          [|discriminate H].
        apply eqb_eq in H; subst s; reflexivity.
      * intros (item' & Hitem & H5); inversion Hitem; subst item'.
        rewrite H5; reflexivity.
    + exfalso.
      apply nth_error_None in Hi.
      assert (Hlt : (i < List.length (parseEvents reply))%nat)
        by (apply nth_error_Some; rewrite He; discriminate).
      unfold parseEvents, mapi in Hlt; rewrite mapi_from_length in Hlt; lia.
  - intros host a out err Hx Hne.
    rewrite listEvents_run, Hx.
    destruct (trim out); [contradiction|reflexivity].
Qed.

Lemma parseEvents_total_and_positional_witness :
  nth_error
    (parseEvents
       (lit "Standup|||1 March 2024|||1 March 2024||||||Work|||true~~~Lunch"))
    1
  = Some {| EventInfo.id := lit "1";
            EventInfo.summary := lit "Lunch";
            EventInfo.startDate := [];
            EventInfo.endDate := [];
            EventInfo.location := [];
            EventInfo.description := [];
            EventInfo.calendar := [];
            EventInfo.isAllDay := false |}.
Proof.
  apply (proj1 (proj2 (parseEvents_total_and_positional
     (lit "Standup|||1 March 2024|||1 March 2024||||||Work|||true~~~Lunch")))
           1%nat (lit "Lunch")).
  reflexivity.
Defined.

(** C10.  With an event summary and a calendar name, [updateEvent] starts
    a subprocess if and only if some optional field counts as supplied:
    [newTitle], [startDate] and [endDate] count when they are non-empty
    strings, [location] and [description] count whenever they are present,
    also as the empty string.  When one counts, exactly one subprocess is
    started, with the update script; when none does, none is started and
    the call returns. *)
Theorem updateEvent_calls_iff_supplied
        (host : Host) (eventSummary calendarName : jsstring)
        (newTitle startDate endDate location description : option jsstring) :
  let run :=
    updateEvent host (Some eventSummary) (Some calendarName) newTitle
      startDate endDate location description in
  (calls run <> []
   <-> ((exists c s, newTitle = Some (c :: s))
        \/ (exists c s, startDate = Some (c :: s))
        \/ (exists c s, endDate = Some (c :: s))
        \/ (exists s, location = Some s)
        \/ (exists s, description = Some s)))
  /\ (calls run <> []
      <-> anySupplied newTitle startDate endDate location description = true)
  /\ (anySupplied newTitle startDate endDate location description = true ->
      calls run
      = [osascript
           (updateEventScript (escapeForAppleScript calendarName)
              (escapeForAppleScript eventSummary)
              (setProperties host newTitle startDate endDate location
                 description))])
  /\ (anySupplied newTitle startDate endDate location description = false ->
      run = ([], Returned tt)).
Proof.
  cbv zeta.
  assert (Hyes :
    anySupplied newTitle startDate endDate location description = true ->
    calls (updateEvent host (Some eventSummary) (Some calendarName) newTitle
             startDate endDate location description)
    = [osascript
         (updateEventScript (escapeForAppleScript calendarName)
            (escapeForAppleScript eventSummary)
            (setProperties host newTitle startDate endDate location
               description))]).
  { intros Hs; unfold updateEvent; cbv zeta.
    destruct (setProperties host newTitle startDate endDate location
                description) as [|p ps] eqn:E.
    - apply setProperties_nil in E; rewrite E in Hs; discriminate Hs.
    - cbn [escapeArgument bind ret]; unfold runAppleScript.
      destruct (execFile host _); reflexivity. }
  assert (Hno :
    anySupplied newTitle startDate endDate location description = false ->
    updateEvent host (Some eventSummary) (Some calendarName) newTitle
      startDate endDate location description = ([], Returned tt)).
  { intros Hs; unfold updateEvent; cbv zeta.
    rewrite (proj2 (setProperties_nil host newTitle startDate endDate
                      location description) Hs).
    reflexivity. }
  assert (Hiff :
    calls (updateEvent host (Some eventSummary) (Some calendarName) newTitle
             startDate endDate location description) <> []
    <-> anySupplied newTitle startDate endDate location description = true).
  { destruct (anySupplied newTitle startDate endDate location description)
      eqn:Hs.
    - rewrite (Hyes eq_refl); split; [reflexivity | discriminate].
    - rewrite (Hno eq_refl); split; [intros H; contradiction H; reflexivity
                                    | discriminate]. }
  split; [|split; [exact Hiff | split; assumption]].
  rewrite Hiff; unfold anySupplied.
  split.
  - destruct newTitle as [[|? ?]|], startDate as [[|? ?]|],
      endDate as [[|? ?]|], location as [?|], description as [?|];
      cbn [truthy isDefined orb]; intros H; try discriminate H; eauto 10.
  - intros [(c & s & ->)|[(c & s & ->)|[(c & s & ->)|[(s & ->)|(s & ->)]]]];
      cbn [truthy isDefined orb]; rewrite ?orb_true_r; reflexivity.
Qed.

Lemma updateEvent_calls_iff_supplied_witness :
  let host := Sample.host (Resolved (lit "success") []) in
  calls (updateEvent host (Some (lit "Standup")) (Some (lit "Work"))
           (Some []) None None (Some []) None)
  = [osascript
       (updateEventScript (lit "Work") (lit "Standup")
          [lit "set location of targetEvent to " ++ quoted []])].
Proof.
  cbv zeta.
  apply (proj1 (proj2 (proj2
           (@updateEvent_calls_iff_supplied
              (Sample.host (Resolved (lit "success") []))
              (lit "Standup") (lit "Work")
              (Some []) None None (Some []) None)))).
  reflexivity.
Defined.

(* ================================================================== *)
(** ** Two scenarios of the specification, run on the embedding *)

(** Calendars named Work and Home are listed in the order of the reply,
    numbered from 0. *)
Example list_calendars_work_home :
  callToolHandler (Sample.host (Resolved (lit "Work~~~Home" ++ nl) []))
    (Request.mk (lit "list_calendars") None)
  = ([osascript
        (join nl
           [ [];
             lit "    tell application " ++ quoted (lit "Calendar");
             lit "      set calNames to name of calendars";
             lit "      set AppleScript's text item delimiters to "
               ++ quoted (lit "~~~");
             lit "      return calNames as text";
             lit "    end tell";
             lit "  " ])],
     Returned
       (textResult
          (JSON.Arr
             [ JSON.Obj [ (lit "name", JSON.Str (lit "Work"));
                          (lit "id", JSON.Str (lit "0")) ];
               JSON.Obj [ (lit "name", JSON.Str (lit "Home"));
                          (lit "id", JSON.Str (lit "1")) ] ]))).
Proof. reflexivity. Qed.

(** Deleting an event that does not exist: the subprocess fails and its
    diagnostic comes back as an internal error. *)
Example delete_event_missing :
  let diagnostic :=
    lit "execution error: Calendar got an error: Can't get event 1 (-1728)" in
  result
    (callToolHandler (Sample.host (Rejected (Some diagnostic) None))
       (Request.mk (lit "delete_event")
          (Some {| Args.title := None;
                   Args.startDate := None;
                   Args.endDate := None;
                   Args.calendarName := Some (lit "Work");
                   Args.location := None;
                   Args.description := None;
                   Args.isAllDay := None;
                   Args.alarms := None;
                   Args.eventSummary := Some (lit "Standup");
                   Args.newTitle := None |})))
  = Threw (McpError InternalError diagnostic).
Proof. reflexivity. Qed.

(* ================================================================== *)
(** ** Further properties of the code *)

(** *** The handler, operation by operation *)

Lemma failureText_or_else (stderr message : option jsstring) :
  or_else stderr (or_else message (lit "AppleScript error"))
  = failureText stderr message.
Proof.
  destruct stderr as [[|? ?]|], message as [[|? ?]|]; reflexivity.
Qed.

Lemma runAppleScript_settled (host : Host) (script : jsstring) :
  runAppleScript host script = settled host (osascript script) (fun out => out).
Proof.
  unfold runAppleScript, settled.
  destruct (execFile host (osascript script)); [reflexivity|].
  rewrite failureText_or_else; reflexivity.
Qed.

Lemma handler_list_calendars (host : Host) (args : option Args.t) :
  callToolHandler host (Request.mk (lit "list_calendars") args)
  = settled host calendarsRequest calendarsResult.
Proof.
  unfold callToolHandler, listCalendars; cbv zeta.
  cbn [Request.name Request.arguments].
  change (Js.eqb (lit "list_calendars") (lit "list_calendars")) with true.
  cbv iota; rewrite runAppleScript_settled.
  unfold settled, calendarsRequest, calendarsResult.
  destruct (execFile host _) as [out err|err msg]; [|reflexivity].
  cbn [bind]; destruct (trim out); reflexivity.
Qed.

Lemma handler_list_events (host : Host) (args : option Args.t) :
  callToolHandler host (Request.mk (lit "list_events") args)
  = match args with
    | None => typeErrorRun host (DestructureUndefined (lit "startDate"))
    | Some a => settled host (listRequest host a) eventsResult
    end.
Proof.
  destruct args as [a|]; [|reflexivity].
  rewrite callTool_list_events, listEvents_run.
  unfold settled, eventsResult.
  destruct (execFile host _) as [out err|err msg].
  - destruct (trim out); reflexivity.
  - rewrite failureText_or_else; reflexivity.
Qed.

Lemma handler_create_event (host : Host) (args : option Args.t) :
  callToolHandler host (Request.mk (lit "create_event") args)
  = match args with
    | None => typeErrorRun host (DestructureUndefined (lit "title"))
    | Some a =>
        match Args.title a with
        | None => typeErrorRun host ReplaceOfUndefined
        | Some title =>
            settled host (createRequest host title a)
              (fun _ => createdResult title)
        end
    end.
Proof.
  rewrite callTool_create_event.
  destruct args as [a|]; [|reflexivity].
  destruct (Args.title a) as [title|]; [|reflexivity].
  unfold settled.
  destruct (execFile host _); [reflexivity|].
  rewrite failureText_or_else; reflexivity.
Qed.

Lemma handler_update_event (host : Host) (args : option Args.t) :
  callToolHandler host (Request.mk (lit "update_event") args)
  = match args with
    | None => typeErrorRun host (DestructureUndefined (lit "eventSummary"))
    | Some a =>
        if updateSupplied a then
          match Args.calendarName a, Args.eventSummary a with
          | Some calendarName, Some eventSummary =>
              settled host (updateRequest host eventSummary calendarName a)
                (fun _ =>
                   textResult
                     (successObject (lit "Event updated")
                        (lit "eventSummary") (Some eventSummary)))
          | _, _ => typeErrorRun host ReplaceOfUndefined
          end
        else
          ([], Returned
                 (textResult
                    (successObject (lit "Event updated") (lit "eventSummary")
                       (Args.eventSummary a))))
    end.
Proof.
  destruct args as [a|]; [|reflexivity].
  unfold callToolHandler, updateEvent, updateSupplied, updateRequest.
  cbn [Request.name Request.arguments].
  change (Js.eqb (lit "update_event") (lit "list_calendars")) with false.
  change (Js.eqb (lit "update_event") (lit "list_events")) with false.
  change (Js.eqb (lit "update_event") (lit "create_event")) with false.
  change (Js.eqb (lit "update_event") (lit "update_event")) with true.
  unfold destructure; cbn [bind ret]; cbv beta iota zeta.
  destruct (anySupplied _ _ _ _ _) eqn:Hs.
  - destruct (setProperties host _ _ _ _ _) as [|p ps] eqn:E.
    + apply setProperties_nil in E; rewrite E in Hs; discriminate Hs.
    + destruct (Args.calendarName a) as [cn|]; [|reflexivity].
      destruct (Args.eventSummary a) as [es|]; [|reflexivity].
      cbn [escapeArgument bind ret]; cbv beta iota.
      rewrite runAppleScript_settled; unfold settled.
      destruct (execFile host _); reflexivity.
  - apply (setProperties_nil host) in Hs; rewrite Hs; reflexivity.
Qed.

Lemma handler_delete_event (host : Host) (args : option Args.t) :
  callToolHandler host (Request.mk (lit "delete_event") args)
  = match args with
    | None => typeErrorRun host (DestructureUndefined (lit "eventSummary"))
    | Some a =>
        match Args.calendarName a, Args.eventSummary a with
        | Some calendarName, Some eventSummary =>
            settled host (deleteRequest eventSummary calendarName)
              (fun _ =>
                 textResult
                   (successObject (lit "Event deleted") (lit "eventSummary")
                      (Some eventSummary)))
        | _, _ => typeErrorRun host ReplaceOfUndefined
        end
    end.
Proof.
  destruct args as [a|]; [|reflexivity].
  unfold callToolHandler, deleteEvent, deleteRequest.
  cbn [Request.name Request.arguments].
  change (Js.eqb (lit "delete_event") (lit "list_calendars")) with false.
  change (Js.eqb (lit "delete_event") (lit "list_events")) with false.
  change (Js.eqb (lit "delete_event") (lit "create_event")) with false.
  change (Js.eqb (lit "delete_event") (lit "update_event")) with false.
  change (Js.eqb (lit "delete_event") (lit "delete_event")) with true.
  unfold destructure; cbn [bind ret]; cbv beta iota zeta.
  destruct (Args.calendarName a) as [cn|]; [|reflexivity].
  destruct (Args.eventSummary a) as [es|]; [|reflexivity].
  cbn [escapeArgument bind ret]; cbv beta iota.
  rewrite runAppleScript_settled; unfold settled.
  destruct (execFile host _); reflexivity.
Qed.

Lemma handler_unknown (host : Host) (name : jsstring) (args : option Args.t) :
  ~ In name registeredNames ->
  callToolHandler host (Request.mk name args)
  = ([], Threw (McpError MethodNotFound (lit "Unknown tool: " ++ name))).
Proof.
  intros Hname; unfold callToolHandler; cbn [Request.name Request.arguments].
  repeat match goal with
  | |- context [Js.eqb name ?n] =>
      rewrite (@eqb_neq name n)
        by (intros E; apply Hname; rewrite E; unfold registeredNames;
            simpl; tauto)
  end.
  reflexivity.
Qed.

Lemma name_cases (name : jsstring) :
  name = lit "list_calendars" \/ name = lit "list_events"
  \/ name = lit "create_event" \/ name = lit "update_event"
  \/ name = lit "delete_event" \/ ~ In name registeredNames.
Proof.
  destruct (Js.eqb name (lit "list_calendars")) eqn:E1;
    [apply eqb_eq in E1; auto|].
  destruct (Js.eqb name (lit "list_events")) eqn:E2;
    [apply eqb_eq in E2; auto|].
  destruct (Js.eqb name (lit "create_event")) eqn:E3;
    [apply eqb_eq in E3; auto|].
  destruct (Js.eqb name (lit "update_event")) eqn:E4;
    [apply eqb_eq in E4; auto 6|].
  destruct (Js.eqb name (lit "delete_event")) eqn:E5;
    [apply eqb_eq in E5; auto 6|].
  do 5 right; unfold registeredNames; simpl.
  intros [H|[H|[H|[H|[H|[]]]]]]; subst name;
    rewrite eqb_refl in *; discriminate.
Qed.

Lemma settled_calls {A : Type} (host : Host) (q : ExecRequest)
      (k : jsstring -> A) :
  calls (settled host q k) = [q].
Proof. unfold settled; destruct (execFile host q); reflexivity. Qed.

(** Every run of the handler, as one of three shapes. *)
Lemma handler_shapes (host : Host) (request : Request.t) :
  (exists script k,
      In (Request.name request) registeredNames
      /\ callToolHandler host request = settled host (osascript script) k)
  \/ (exists r,
         In (Request.name request) registeredNames
         /\ callToolHandler host request = ([], Returned r))
  \/ (exists code message,
         callToolHandler host request = ([], Threw (McpError code message))
         /\ (code = MethodNotFound
             <-> ~ In (Request.name request) registeredNames)).
Proof.
  assert (Hin : forall n, In n registeredNames -> InternalError = MethodNotFound
                          <-> ~ In n registeredNames)
    by (intros n Hn; split; [discriminate | intros H; contradiction]).
  assert (Hreg : In (lit "list_calendars") registeredNames
                 /\ In (lit "list_events") registeredNames
                 /\ In (lit "create_event") registeredNames
                 /\ In (lit "update_event") registeredNames
                 /\ In (lit "delete_event") registeredNames)
    by (unfold registeredNames; simpl; tauto).
  destruct Hreg as (R1 & R2 & R3 & R4 & R5).
  destruct request as [name args]; cbn [Request.name].
  destruct (name_cases name) as [->|[->|[->|[->|[->|Hun]]]]].
  - left; rewrite handler_list_calendars; unfold calendarsRequest; eauto.
  - rewrite handler_list_events; destruct args as [a|].
    + left; unfold listRequest; eauto.
    + right; right; unfold typeErrorRun; eauto.
  - rewrite handler_create_event; destruct args as [a|];
      [destruct (Args.title a)|].
    + left; unfold createRequest; eauto.
    + right; right; unfold typeErrorRun; eauto.
    + right; right; unfold typeErrorRun; eauto.
  - rewrite handler_update_event; destruct args as [a|];
      [destruct (updateSupplied a);
       [destruct (Args.calendarName a); [destruct (Args.eventSummary a)|]|]|].
    + left; unfold updateRequest; eauto.
    + right; right; unfold typeErrorRun; eauto.
    + right; right; unfold typeErrorRun; eauto.
    + right; left; eauto.
    + right; right; unfold typeErrorRun; eauto.
  - rewrite handler_delete_event; destruct args as [a|];
      [destruct (Args.calendarName a); [destruct (Args.eventSummary a)|]|].
    + left; unfold deleteRequest; eauto.
    + right; right; unfold typeErrorRun; eauto.
    + right; right; unfold typeErrorRun; eauto.
    + right; right; unfold typeErrorRun; eauto.
  - right; right; rewrite (handler_unknown host args Hun).
    do 2 eexists; split; [reflexivity|]. split; auto.
Qed.

(** X1.  Whatever the request is, the handler starts at most one
    subprocess, and what it starts is [osascript -e <text>] with the time
    limit of 30000 milliseconds, the text being the launch preamble
    followed by the script of the operation. *)
Theorem handler_starts_at_most_one_osascript
        (host : Host) (request : Request.t) :
  (List.length (calls (callToolHandler host request)) <= 1)%nat
  /\ (forall q, In q (calls (callToolHandler host request)) ->
                file q = lit "osascript"
                /\ timeout q = 30000%Z
                /\ exists script, argv q = [lit "-e"; launchScript script]).
Proof.
  destruct (handler_shapes host request)
    as [(script & k & _ & E)|[(r & _ & E)|(code & message & E & _)]];
    rewrite E.
  - rewrite settled_calls; split; [simpl; lia|].
    intros q [<-|[]]; repeat split; eexists; reflexivity.
  - split; [simpl; lia | intros q []].
  - split; [simpl; lia | intros q []].
Qed.

(** X2.  The handler lets nothing but an [McpError] out: every failure is
    a method-not-found or an internal error, and it is method-not-found
    exactly when the operation name is not a registered one. *)
Theorem handler_raises_only_mcp_errors
        (host : Host) (request : Request.t) (e : exn) :
  result (callToolHandler host request) = Threw e ->
  exists code message,
    e = McpError code message
    /\ (code = MethodNotFound
        <-> ~ In (Request.name request) registeredNames).
Proof.
  destruct (handler_shapes host request)
    as [(script & k & Hreg & E)|[(r & _ & E)|(code & message & E & Hc)]];
    rewrite E; unfold result.
  - unfold settled; destruct (execFile host _); cbn [snd]; intros H;
      [discriminate H|].
    inversion H; subst; do 2 eexists; split; [reflexivity|].
    split; [discriminate | intros Hn; contradiction].
  - cbn [snd]; discriminate.
  - cbn [snd]; intros H; inversion H; subst; eauto.
Qed.

Lemma handler_raises_only_mcp_errors_witness :
  exists code message,
    McpError InternalError
      (lit "Cannot read properties of undefined (reading 'replace')")
    = McpError code message
    /\ (code = MethodNotFound <-> ~ In (lit "delete_event") registeredNames).
Proof.
  apply (@handler_raises_only_mcp_errors
           (Sample.host (Resolved [] []))
           (Request.mk (lit "delete_event") (Some Sample.standup))).
  reflexivity.
Defined.

(** X3.  When the handler has started a subprocess, the subprocess decides
    the outcome: the handler returns a result exactly when the subprocess
    succeeds, and when it fails the handler raises the internal error that
    carries its standard error, else its message, else the text
    [AppleScript error]. *)
Theorem handler_outcome_follows_subprocess
        (host : Host) (request : Request.t) (q : ExecRequest) :
  In q (calls (callToolHandler host request)) ->
  ((exists r, result (callToolHandler host request) = Returned r)
   <-> exists stdout stderr, execFile host q = Resolved stdout stderr)
  /\ (forall stderr message,
         execFile host q = Rejected stderr message ->
         result (callToolHandler host request)
         = Threw (McpError InternalError (failureText stderr message))).
Proof.
  destruct (handler_shapes host request)
    as [(script & k & _ & E)|[(r & _ & E)|(code & message & E & _)]];
    rewrite E; try (intros []).
  rewrite settled_calls; intros [<-|[]].
  unfold settled, result.
  destruct (execFile host (osascript script)) as [out err|err msg];
    cbn [snd]; split.
  - split; eauto.
  - intros ? ? H; discriminate H.
  - split; [intros (r & H); discriminate H
           | intros (o & e' & H); discriminate H].
  - intros ? ? H; inversion H; subst; reflexivity.
Qed.

Lemma handler_outcome_follows_subprocess_witness :
  let host := Sample.host (Rejected None (Some (lit "Command failed"))) in
  let request := Request.mk (lit "list_calendars") None in
  result (callToolHandler host request)
  = Threw (McpError InternalError (lit "Command failed")).
Proof.
  cbv zeta.
  refine (proj2 (@handler_outcome_follows_subprocess
                   (Sample.host (Rejected None (Some (lit "Command failed"))))
                   (Request.mk (lit "list_calendars") None)
                   calendarsRequest _)
            None (Some (lit "Command failed")) _).
  - left; reflexivity.
  - reflexivity.
Defined.

(** X4.  A call of [list_events], [create_event], [update_event] or
    [delete_event] that carries no argument object starts no subprocess
    and raises an internal error with the engine's message for reading a
    property of [undefined]; [list_calendars] never looks at its
    arguments. *)
Theorem handler_without_arguments (host : Host) :
  callToolHandler host (Request.mk (lit "list_events") None)
  = typeErrorRun host (DestructureUndefined (lit "startDate"))
  /\ callToolHandler host (Request.mk (lit "create_event") None)
     = typeErrorRun host (DestructureUndefined (lit "title"))
  /\ callToolHandler host (Request.mk (lit "update_event") None)
     = typeErrorRun host (DestructureUndefined (lit "eventSummary"))
  /\ callToolHandler host (Request.mk (lit "delete_event") None)
     = typeErrorRun host (DestructureUndefined (lit "eventSummary"))
  /\ (forall args,
         callToolHandler host (Request.mk (lit "list_calendars") args)
         = callToolHandler host (Request.mk (lit "list_calendars") None)).
Proof.
  rewrite handler_list_events, handler_create_event, handler_update_event,
    handler_delete_event.
  do 4 (split; [reflexivity|]).
  intros args; rewrite !handler_list_calendars; reflexivity.
Qed.

(** X5.  An operation that has to quote a string it was not given raises
    an internal error before any subprocess is started: [create_event]
    without a title, [delete_event] without an event summary or without a
    calendar name, and [update_event] likewise as soon as one field counts
    as supplied. *)
Theorem handler_missing_required_string (host : Host) (a : Args.t) :
  (Args.title a = None ->
   callToolHandler host (Request.mk (lit "create_event") (Some a))
   = typeErrorRun host ReplaceOfUndefined)
  /\ (Args.eventSummary a = None \/ Args.calendarName a = None ->
      callToolHandler host (Request.mk (lit "delete_event") (Some a))
      = typeErrorRun host ReplaceOfUndefined)
  /\ (Args.eventSummary a = None \/ Args.calendarName a = None ->
      updateSupplied a = true ->
      callToolHandler host (Request.mk (lit "update_event") (Some a))
      = typeErrorRun host ReplaceOfUndefined).
Proof.
  rewrite handler_create_event, handler_delete_event, handler_update_event.
  split; [|split].
  - intros ->; reflexivity.
  - intros [->| ->]; [destruct (Args.calendarName a)|]; reflexivity.
  - intros [->| ->] ->; [destruct (Args.calendarName a)|]; reflexivity.
Qed.

Lemma handler_missing_required_string_witness :
  callToolHandler (Sample.host (Resolved [] []))
    (Request.mk (lit "delete_event") (Some Sample.standup))
  = ([], Threw (McpError InternalError
                  (lit "Cannot read properties of undefined (reading 'replace')"))).
Proof.
  apply (proj1 (proj2 (@handler_missing_required_string
                         (Sample.host (Resolved [] [])) Sample.standup))).
  left; reflexivity.
Defined.

(** *** Where a script holds a quoted piece *)

Lemma quotedAt_here (tag body post : jsstring) :
  quotedAt (tag ++ quoted body ++ post) tag body post.
Proof.
  exists []; unfold quoted; rewrite <- !app_assoc; reflexivity.
Qed.

Lemma quotedAt_end (tag body : jsstring) :
  quotedAt (tag ++ quoted body) tag body [].
Proof.
  exists []; unfold quoted; rewrite app_nil_r; reflexivity.
Qed.

Lemma quotedAt_app_l (a script tag body post : jsstring) :
  quotedAt script tag body post -> quotedAt (a ++ script) tag body post.
Proof.
  intros (pre & ->); exists (a ++ pre); rewrite <- app_assoc; reflexivity.
Qed.

Lemma quotedAt_app_r (b script tag body post : jsstring) :
  quotedAt script tag body post ->
  quotedAt (script ++ b) tag body (post ++ b).
Proof.
  intros (pre & ->); exists pre; rewrite <- !app_assoc; reflexivity.
Qed.

Lemma quotedAt_join (sep : jsstring) (lines : list jsstring)
      (line tag body post : jsstring) :
  In line lines ->
  quotedAt line tag body post ->
  exists post', quotedAt (join sep lines) tag body post'.
Proof.
  intros Hin Hq; induction lines as [|l lines IH]; [destruct Hin|].
  destruct lines as [|l' lines].
  - destruct Hin as [->|[]]; exists post; exact Hq.
  - change (join sep (l :: l' :: lines))
      with (l ++ sep ++ join sep (l' :: lines)).
    destruct Hin as [->|Hin].
    + eexists; apply quotedAt_app_r, Hq.
    + destruct (IH Hin) as (post' & H).
      exists post'; apply quotedAt_app_l, quotedAt_app_l, H.
Qed.

Lemma literalValue_escaped (script tag value post : jsstring) :
  quotedAt script tag (escapeForAppleScript value) post ->
  literalValue script tag value.
Proof.
  intros H; exists (escapeForAppleScript value), post; split; [exact H|].
  rewrite escape_one_pass; apply readLiteral_escaped.
Qed.

Lemma readLiteral_plain (body rest : jsstring) :
  plain body ->
  AppleScript.readLiteral (body ++ dq ++ rest) = Some (body, rest).
Proof.
  intros Hp; induction body as [|c body IH]; [reflexivity|].
  destruct (Hp c (or_introl eq_refl)) as [H34 H92].
  cbn [app AppleScript.readLiteral].
  rewrite (proj2 (N.eqb_neq c 34) H34), (proj2 (N.eqb_neq c 92) H92).
  rewrite IH; [reflexivity|].
  intros x Hx; apply Hp; right; exact Hx.
Qed.

Lemma tell_calendar_line (body : jsstring) :
  quotedAt (lit "      tell calendar " ++ quoted body)
    (lit "tell calendar ") body [].
Proof.
  change (lit "      tell calendar ")
    with (lit "      " ++ lit "tell calendar ").
  rewrite <- app_assoc; apply quotedAt_app_l, quotedAt_end.
Qed.

Lemma whose_summary_line (body : jsstring) :
  quotedAt
    (lit "        set targetEvent to (first event whose summary is "
     ++ quoted body ++ lit ")")
    (lit "whose summary is ") body (lit ")").
Proof.
  change (lit "        set targetEvent to (first event whose summary is ")
    with (lit "        set targetEvent to (first event "
          ++ lit "whose summary is ").
  rewrite <- app_assoc; apply quotedAt_app_l, quotedAt_here.
Qed.

(** Finds the escaped value in a joined script: [position] picks the
    line, [line] finds the quoted piece in it. *)
Ltac literal_in_join position line :=
  match goal with
  | |- literalValue (join ?sep ?lines) ?tag ?v =>
      let H := fresh "H" in
      let post := fresh "post" in
      assert (H : exists post',
                 quotedAt (join sep lines) tag (escapeForAppleScript v) post')
        by (eapply quotedAt_join; [ position | line ]);
      destruct H as (post & H);
      exact (@literalValue_escaped _ _ _ _ H)
  end.

(** X6.  [deleteEvent] with an event summary and a calendar name starts
    one subprocess, and in its script the literal after [tell calendar]
    reads as the calendar name and the literal after [whose summary is]
    reads as the event summary, whatever characters the two hold. *)
Theorem deleteEvent_script_names_its_key
        (host : Host) (eventSummary calendarName : jsstring) :
  let script :=
    deleteEventScript (escapeForAppleScript calendarName)
      (escapeForAppleScript eventSummary) in
  calls (deleteEvent host (Some eventSummary) (Some calendarName))
  = [osascript script]
  /\ literalValue script (lit "tell calendar ") calendarName
  /\ literalValue script (lit "whose summary is ") eventSummary.
Proof.
  cbv zeta; split; [|split].
  - unfold deleteEvent; cbn [escapeArgument bind ret]; cbv beta iota zeta.
    rewrite runAppleScript_settled; unfold settled.
    destruct (execFile host _); reflexivity.
  - unfold deleteEventScript.
    literal_in_join ltac:(right; right; left; reflexivity)
                    ltac:(apply tell_calendar_line).
  - unfold deleteEventScript.
    literal_in_join ltac:(right; right; right; left; reflexivity)
                    ltac:(apply whose_summary_line).
Qed.

Lemma setProperties_holds (host : Host)
      (newTitle startDate endDate location description : option jsstring) :
  (forall c s, newTitle = Some (c :: s) ->
     In (lit "set summary of targetEvent to "
         ++ quoted (escapeForAppleScript (c :: s)))
        (setProperties host newTitle startDate endDate location description))
  /\ (forall s, location = Some s ->
        In (lit "set location of targetEvent to "
            ++ quoted (escapeForAppleScript s))
           (setProperties host newTitle startDate endDate location
              description))
  /\ (forall s, description = Some s ->
        In (lit "set description of targetEvent to "
            ++ quoted (escapeForAppleScript s))
           (setProperties host newTitle startDate endDate location
              description)).
Proof.
  unfold setProperties.
  split; [|split].
  - intros c s ->.
    destruct startDate as [[|? ?]|], endDate as [[|? ?]|],
      location as [?|], description as [?|];
      cbn [app]; repeat first [left; reflexivity | right].
  - intros s ->.
    destruct newTitle as [[|? ?]|], startDate as [[|? ?]|],
      endDate as [[|? ?]|], description as [?|];
      cbn [app]; repeat first [left; reflexivity | right].
  - intros s ->.
    destruct newTitle as [[|? ?]|], startDate as [[|? ?]|],
      endDate as [[|? ?]|], location as [?|];
      cbn [app]; repeat first [left; reflexivity | right].
Qed.

(** X7.  In the script of [updateEvent], the literals after
    [tell calendar] and [whose summary is] read as the calendar name and
    the event summary, and each supplied text field is assigned a literal
    that reads as the supplied value: the new title, the location and the
    description reach the calendar unchanged, quotes and backslashes
    included. *)
Theorem updateEvent_script_carries_values
        (host : Host) (eventSummary calendarName : jsstring)
        (newTitle startDate endDate location description : option jsstring) :
  let script :=
    updateEventScript (escapeForAppleScript calendarName)
      (escapeForAppleScript eventSummary)
      (setProperties host newTitle startDate endDate location description) in
  (anySupplied newTitle startDate endDate location description = true ->
   calls (updateEvent host (Some eventSummary) (Some calendarName) newTitle
            startDate endDate location description)
   = [osascript script])
  /\ literalValue script (lit "tell calendar ") calendarName
  /\ literalValue script (lit "whose summary is ") eventSummary
  /\ (forall c s, newTitle = Some (c :: s) ->
        literalValue script (lit "set summary of targetEvent to ") (c :: s))
  /\ (forall s, location = Some s ->
        literalValue script (lit "set location of targetEvent to ") s)
  /\ (forall s, description = Some s ->
        literalValue script (lit "set description of targetEvent to ") s).
Proof.
  cbv zeta.
  destruct (setProperties_holds host newTitle startDate endDate location
              description) as (Ht & Hl & Hd).
  set (props := setProperties host newTitle startDate endDate location
                  description) in *.
  assert (Hstmt : forall tag v,
             In (tag ++ quoted (escapeForAppleScript v)) props ->
             literalValue
               (updateEventScript (escapeForAppleScript calendarName)
                  (escapeForAppleScript eventSummary) props) tag v).
  { intros tag v Hin.
    destruct (quotedAt_join (nl ++ lit "        ") props Hin
                (quotedAt_end tag (escapeForAppleScript v))) as (p1 & Q1).
    unfold updateEventScript.
    literal_in_join ltac:(right; right; right; right; left; reflexivity)
                    ltac:(apply quotedAt_app_l, Q1). }
  split; [|split; [|split; [|split; [|split]]]].
  - intros Hs; unfold updateEvent; cbv zeta; fold props.
    destruct props as [|p ps] eqn:E.
    + apply setProperties_nil in E; rewrite E in Hs; discriminate Hs.
    + cbn [escapeArgument bind ret]; cbv beta iota.
      rewrite runAppleScript_settled; unfold settled.
      destruct (execFile host _); reflexivity.
  - unfold updateEventScript.
    literal_in_join ltac:(right; right; left; reflexivity)
                    ltac:(apply tell_calendar_line).
  - unfold updateEventScript.
    literal_in_join ltac:(right; right; right; left; reflexivity)
                    ltac:(apply whose_summary_line).
  - intros c s H; apply Hstmt, (Ht c s H).
  - intros s H; apply Hstmt, (Hl s H).
  - intros s H; apply Hstmt, (Hd s H).
Qed.



(** X9.  [listEvents] writes the calendar name into its script as it is,
    without escaping: the name stands between the quotes that follow
    [{calendar].  A name without quote and backslash is read back whole;
    for a name with a double quote, the literal ends at that quote, its
    value is only the part before it, and the rest of the name is read as
    script text. *)
Theorem listEvents_calendar_name_is_verbatim
        (host : Host) (startDate endDate : option jsstring)
        (c : N) (name : jsstring) :
  exists post,
    quotedAt (listEventsScript host startDate endDate (Some (c :: name)))
      (lit "{calendar ") (c :: name) post
    /\ (plain (c :: name) ->
        AppleScript.readLiteral ((c :: name) ++ dq ++ post)
        = Some (c :: name, post))
    /\ (forall before after,
           c :: name = before ++ dq ++ after ->
           plain before ->
           AppleScript.readLiteral ((c :: name) ++ dq ++ post)
           = Some (before, after ++ dq ++ post)).
Proof.
  assert (H : exists post,
             quotedAt
               (listEventsScript host startDate endDate (Some (c :: name)))
               (lit "{calendar ") (c :: name) post).
  { unfold listEventsScript; cbv zeta.
    eapply quotedAt_join.
    - do 5 right; left; reflexivity.
    - apply quotedAt_app_l.
      change (lit "set cals to {calendar ")
        with (lit "set cals to " ++ lit "{calendar ").
      rewrite <- app_assoc; apply quotedAt_app_l, quotedAt_here. }
  destruct H as (post & H); exists post.
  split; [exact H|]. split.
  - intros Hp; apply readLiteral_plain, Hp.
  - intros before after E Hp; rewrite E, <- !app_assoc.
    apply readLiteral_plain, Hp.
Qed.

(** X10.  A start date that is missing, or that the [Date] constructor
    does not accept, is no error for [list_events]: the text
    [NaN/NaN/NaN NaN:NaN:00] is written as the date of the script and the
    subprocess is started all the same. *)
Theorem list_events_invalid_date_still_runs (host : Host) (a : Args.t) :
  newDate host (Args.startDate a) = InvalidDate ->
  formatDateForAppleScript host (Args.startDate a)
  = lit "NaN/NaN/NaN NaN:NaN:00"
  /\ calls (callToolHandler host (Request.mk (lit "list_events") (Some a)))
     = [listRequest host a]
  /\ exists post,
       quotedAt
         (listEventsScript host (Args.startDate a) (Args.endDate a)
            (Args.calendarName a))
         (lit "set startD to date ") (lit "NaN/NaN/NaN NaN:NaN:00") post.
Proof.
  intros Hd.
  assert (F : formatDateForAppleScript host (Args.startDate a)
              = lit "NaN/NaN/NaN NaN:NaN:00")
    by (unfold formatDateForAppleScript; rewrite Hd; reflexivity).
  split; [exact F|]. split.
  - rewrite handler_list_events; apply settled_calls.
  - unfold listEventsScript; cbv zeta; rewrite F.
    eapply quotedAt_join.
    + right; right; left; reflexivity.
    + change (lit "      set startD to date ")
        with (lit "      " ++ lit "set startD to date ").
      rewrite <- app_assoc; apply quotedAt_app_l, quotedAt_end.
Qed.

Lemma list_events_invalid_date_still_runs_witness :
  let host := Sample.host (Resolved [] []) in
  let a :=
    {| Args.title := None;
       Args.startDate := Some (lit "tomorrow");
       Args.endDate := None;
       Args.calendarName := None;
       Args.location := None;
       Args.description := None;
       Args.isAllDay := None;
       Args.alarms := None;
       Args.eventSummary := None;
       Args.newTitle := None |} in
  calls (callToolHandler host (Request.mk (lit "list_events") (Some a)))
  = [listRequest host a].
Proof.
  cbv zeta.
  refine (proj1 (proj2 (@list_events_invalid_date_still_runs
                          (Sample.host (Resolved [] [])) _ _))).
  reflexivity.
Defined.

Lemma listEvents_calendar_name_is_verbatim_witness :
  exists post,
    AppleScript.readLiteral
      ((lit "Work" ++ dq ++ lit "} -- ") ++ dq ++ post)
    = Some (lit "Work", lit "} -- " ++ dq ++ post).
Proof.
  destruct (@listEvents_calendar_name_is_verbatim
              (Sample.host (Resolved [] [])) None None
              87%N (lit "ork" ++ dq ++ lit "} -- "))
    as (post & _ & _ & H).
  exists post.
  apply (H (lit "Work") (lit "} -- ")); [reflexivity|].
  intros x Hx; simpl in Hx.
  destruct Hx as [<-|[<-|[<-|[<-|[]]]]]; split; discriminate.
Defined.

(** *** Cutting a joined text gives the pieces back *)

Lemma isPrefix_app (p tail : jsstring) : isPrefix p (p ++ tail) = true.
Proof.
  induction p as [|x p IH]; [reflexivity|].
  simpl; rewrite N.eqb_refl, IH; reflexivity.
Qed.

Lemma split_from_skip (sep q : jsstring) :
  forall cur tail,
    split_from sep (List.length q) cur (q ++ tail) = split_from sep 0 cur tail.
Proof.
  induction q as [|c q IH]; intros cur tail; [reflexivity|].
  cbn [List.length app split_from]; apply IH.
Qed.

Lemma split_from_free (x : N) (sep' p : jsstring) :
  ~ In x p ->
  forall cur tail,
    split_from (x :: sep') 0 cur (p ++ tail)
    = split_from (x :: sep') 0 (rev p ++ cur) tail.
Proof.
  induction p as [|c p IH]; intros Hp cur tail; [reflexivity|].
  cbn [app split_from isPrefix].
  assert (Hc : N.eqb x c = false)
    by (apply N.eqb_neq; intros ->; apply Hp; left; reflexivity).
  rewrite Hc; cbn [andb].
  rewrite IH by (intros H; apply Hp; right; exact H).
  cbn [rev]; rewrite <- app_assoc; reflexivity.
Qed.

Lemma split_from_separator (x : N) (sep' cur tail : jsstring) :
  split_from (x :: sep') 0 cur ((x :: sep') ++ tail)
  = rev cur :: split_from (x :: sep') 0 [] tail.
Proof.
  cbn [app split_from].
  change (x :: sep' ++ tail) with ((x :: sep') ++ tail).
  rewrite isPrefix_app.
  cbn [List.length Nat.sub]; rewrite Nat.sub_0_r, split_from_skip.
  reflexivity.
Qed.

Lemma split_join_free (x : N) (sep' : jsstring) (pieces : list jsstring) :
  pieces <> [] ->
  (forall p, In p pieces -> ~ In x p) ->
  split (x :: sep') (join (x :: sep') pieces) = pieces.
Proof.
  unfold split.
  induction pieces as [|p pieces IH]; intros Hne Hfree; [contradiction|].
  destruct pieces as [|q pieces].
  - cbn [join].
    rewrite <- (app_nil_r p) at 1.
    rewrite split_from_free by (apply Hfree; left; reflexivity).
    cbn [split_from]; rewrite app_nil_r, rev_involutive; reflexivity.
  - change (join (x :: sep') (p :: q :: pieces))
      with (p ++ (x :: sep') ++ join (x :: sep') (q :: pieces)).
    rewrite split_from_free by (apply Hfree; left; reflexivity).
    rewrite split_from_separator, app_nil_r, rev_involutive.
    apply (f_equal (cons p)), IH; [discriminate|].
    intros r Hr; apply Hfree; right; exact Hr.
Qed.

Lemma mapi_from_map {A B C : Type} (f : B -> nat -> C) (g : A -> B)
      (l : list A) :
  forall i, mapi_from f i (List.map g l) = mapi_from (fun x => f (g x)) i l.
Proof.
  induction l as [|x l IH]; intros i; [reflexivity|].
  simpl; rewrite IH; reflexivity.
Qed.

Lemma mapi_from_ext {A B : Type} (f g : A -> nat -> B) (l : list A) :
  (forall x i, In x l -> f x i = g x i) ->
  forall i, mapi_from f i l = mapi_from g i l.
Proof.
  induction l as [|x l IH]; intros H i; [reflexivity|].
  simpl; rewrite (H x i (or_introl eq_refl)), IH; [reflexivity|].
  intros y j Hy; apply H; right; exact Hy.
Qed.

Lemma not_in_app (x : N) (a b : jsstring) :
  ~ In x a -> ~ In x b -> ~ In x (a ++ b).
Proof. intros Ha Hb H; apply in_app_or in H; tauto. Qed.

Lemma flag_clean (b : bool) :
  cleanText (if b then lit "true" else lit "false").
Proof.
  destruct b; split; simpl; intros H;
    repeat (destruct H as [H|H]; [discriminate H|]); exact H.
Qed.

Lemma eventLine_fields (e : EventInfo.t) :
  cleanEvent e ->
  split (lit "|||") (eventLine e)
  = [ EventInfo.summary e; EventInfo.startDate e; EventInfo.endDate e;
      EventInfo.location e; EventInfo.calendar e;
      if EventInfo.isAllDay e then lit "true" else lit "false" ]
  /\ ~ In 126%N (eventLine e).
Proof.
  intros (H1 & H2 & H3 & H4 & H5).
  pose proof (flag_clean (EventInfo.isAllDay e)) as H6.
  split.
  - unfold eventLine.
    apply (@split_join_free 124%N (lit "||")); [discriminate|].
    intros p [<-|[<-|[<-|[<-|[<-|[<-|[]]]]]]];
      [apply H1 | apply H2 | apply H3 | apply H4 | apply H5 | apply H6].
  - unfold eventLine; cbn [join].
    assert (Hsep : ~ In 126%N (lit "|||"))
      by (simpl; intros H;
          repeat (destruct H as [H|H]; [discriminate H|]); exact H).
    repeat (apply not_in_app;
            [first [apply H1 | apply H2 | apply H3 | apply H4 | apply H5
                   | exact Hsep]|]).
    apply H6.
Qed.

(** X11.  The parser of [listEvents] undoes what the listing script does:
    for events whose summary, dates, location and calendar name hold
    neither [~] nor [|], the lines joined by [~~~], each made of the
    fields joined by [|||], parse back to the same fields and flags in the
    same order, with the position as [id] and an empty [description]. *)
Theorem parseEvents_reads_back_the_reply (events : list EventInfo.t) :
  events <> [] ->
  (forall e, In e events -> cleanEvent e) ->
  parseEvents (eventsReply events)
  = mapi (fun e index =>
            {| EventInfo.id := String_of_nat index;
               EventInfo.summary := EventInfo.summary e;
               EventInfo.startDate := EventInfo.startDate e;
               EventInfo.endDate := EventInfo.endDate e;
               EventInfo.location := EventInfo.location e;
               EventInfo.description := [];
               EventInfo.calendar := EventInfo.calendar e;
               EventInfo.isAllDay := EventInfo.isAllDay e |})
         events.
Proof.
  intros Hne Hclean.
  unfold parseEvents, eventsReply.
  change (lit "~~~") with (126%N :: lit "~~").
  rewrite split_join_free.
  - unfold mapi; rewrite mapi_from_map.
    apply mapi_from_ext; intros e i He.
    unfold parseEvent.
    rewrite (proj1 (eventLine_fields (Hclean e He))).
    cbn [nth_error is_true_text].
    destruct (EventInfo.summary e), (EventInfo.startDate e),
      (EventInfo.endDate e), (EventInfo.location e), (EventInfo.calendar e),
      (EventInfo.isAllDay e); reflexivity.
  - destruct events; [contradiction | discriminate].
  - intros p Hp; apply in_map_iff in Hp; destruct Hp as (e & <- & He).
    apply (eventLine_fields (Hclean e He)).
Qed.

Lemma parseEvents_reads_back_the_reply_witness :
  parseEvents
    (eventsReply
       [ EventInfo.mk (lit "7") (lit "Standup") (lit "1 March 2024 09:00")
           (lit "1 March 2024 09:15") [] (lit "notes") (lit "Work") true ])
  = [ EventInfo.mk (lit "0") (lit "Standup") (lit "1 March 2024 09:00")
        (lit "1 March 2024 09:15") [] [] (lit "Work") true ].
Proof.
  apply (@parseEvents_reads_back_the_reply
           [ EventInfo.mk (lit "7") (lit "Standup") (lit "1 March 2024 09:00")
               (lit "1 March 2024 09:15") [] (lit "notes") (lit "Work")
               true ]).
  - discriminate.
  - intros e [<-|[]]; unfold cleanEvent, cleanText; simpl.
    repeat split; intros H;
      repeat (destruct H as [H|H]; [discriminate H|]); exact H.
Defined.

(** X12.  The parser of [listCalendars] undoes the join of the script: for
    calendar names without [~], the names joined by [~~~] parse back to
    the same names in the same order, each trimmed of the white space at
    its ends and numbered from 0. *)
Theorem parseCalendars_reads_back_the_reply (names : list jsstring) :
  names <> [] ->
  (forall n, In n names -> ~ In 126%N n) ->
  parseCalendars (join (lit "~~~") names)
  = mapi (fun name index =>
            {| CalendarInfo.name := trim name;
               CalendarInfo.id := String_of_nat index |})
         names.
Proof.
  intros Hne Hfree; unfold parseCalendars.
  change (lit "~~~") with (126%N :: lit "~~").
  rewrite split_join_free by assumption.
  reflexivity.
Qed.

Lemma parseCalendars_reads_back_the_reply_witness :
  parseCalendars (join (lit "~~~") [lit "Work"; lit " Home "])
  = [ {| CalendarInfo.name := lit "Work"; CalendarInfo.id := lit "0" |};
      {| CalendarInfo.name := lit "Home"; CalendarInfo.id := lit "1" |} ].
Proof.
  apply (@parseCalendars_reads_back_the_reply [lit "Work"; lit " Home "]).
  - discriminate.
  - intros n [<-|[<-|[]]]; simpl; intros H;
      repeat (destruct H as [H|H]; [discriminate H|]); exact H.
Defined.

Lemma listCalendars_run (host : Host) :
  listCalendars host
  = settled host calendarsRequest
      (fun out => match out with
                  | [] => []
                  | _ => parseCalendars out
                  end).
Proof.
  unfold listCalendars; cbv zeta; rewrite runAppleScript_settled.
  unfold settled, calendarsRequest.
  destruct (execFile host _) as [out err|err msg]; [|reflexivity].
  cbn [bind]; destruct (trim out); reflexivity.
Qed.

(** X13.  When the subprocess of [listCalendars] succeeds: an output that
    is empty once trimmed gives no calendar, and the handler answers the
    text [[]]; any other output is cut at [~~~] and the calendar at
    position [i] has the [i]-th piece, trimmed, as name and [i] in decimal
    as id. *)
Theorem listCalendars_reads_the_reply
        (host : Host) (stdout stderr : jsstring) :
  execFile host calendarsRequest = Resolved stdout stderr ->
  (trim stdout = [] ->
   listCalendars host = ([calendarsRequest], Returned [])
   /\ callToolHandler host (Request.mk (lit "list_calendars") None)
      = ([calendarsRequest],
         Returned {| content := [ {| TextContent.type_ := lit "text";
                                     TextContent.text := lit "[]" |} ] |}))
  /\ (trim stdout <> [] ->
      listCalendars host
      = ([calendarsRequest], Returned (parseCalendars (trim stdout)))
      /\ List.length (parseCalendars (trim stdout))
         = List.length (split (lit "~~~") (trim stdout))
      /\ forall i piece,
           nth_error (split (lit "~~~") (trim stdout)) i = Some piece ->
           nth_error (parseCalendars (trim stdout)) i
           = Some {| CalendarInfo.name := trim piece;
                     CalendarInfo.id := String_of_nat i |}).
Proof.
  intros Hx; split.
  - intros Ht; rewrite listCalendars_run, handler_list_calendars.
    unfold settled, calendarsResult; rewrite Hx, Ht; split; reflexivity.
  - intros Hne; rewrite listCalendars_run; unfold settled; rewrite Hx.
    split; [destruct (trim stdout); [contradiction | reflexivity]|].
    split; [apply mapi_from_length|].
    intros i piece H; unfold parseCalendars, mapi.
    rewrite (mapi_from_nth _ _ 0 i H); reflexivity.
Qed.

Lemma listCalendars_reads_the_reply_witness :
  listCalendars (Sample.host (Resolved (lit " " ++ nl) []))
  = ([calendarsRequest], Returned []).
Proof.
  apply (proj1 (@listCalendars_reads_the_reply
                  (Sample.host (Resolved (lit " " ++ nl) []))
                  (lit " " ++ nl) [] eq_refl)).
  reflexivity.
Defined.

(** *** Positions in decimal are distinct *)

Lemma of_uint_inj (u v : Decimal.uint) : of_uint u = of_uint v -> u = v.
Proof.
  revert v; induction u; intros v H; destruct v; cbn in H;
    try discriminate H; try reflexivity;
    f_equal; apply IHu; inversion H; reflexivity.
Qed.

Lemma String_of_nat_inj (n m : nat) :
  String_of_nat n = String_of_nat m -> n = m.
Proof.
  intros H; apply DecimalNat.Unsigned.to_uint_inj, of_uint_inj, H.
Qed.

Lemma mapi_from_ids {A B : Type} (f : A -> nat -> B) (id : B -> jsstring)
      (l : list A) :
  (forall x i, id (f x i) = String_of_nat i) ->
  forall i,
    NoDup (List.map id (mapi_from f i l))
    /\ forall s, In s (List.map id (mapi_from f i l)) ->
                 exists k, (i <= k)%nat /\ s = String_of_nat k.
Proof.
  intros Hid; induction l as [|x l IH]; intros i.
  - split; [constructor | intros s []].
  - destruct (IH (S i)) as (Hnd & Hge).
    cbn [mapi_from List.map]; rewrite Hid; split.
    + constructor; [|exact Hnd].
      intros Hin; destruct (Hge _ Hin) as (k & Hk & E).
      apply String_of_nat_inj in E; lia.
    + intros s [<-|Hs]; [exists i; split; [lia | reflexivity]|].
      destruct (Hge s Hs) as (k & Hk & E); exists k; split; [lia | exact E].
Qed.

(** X14.  Within one listing no two records share an id: the ids of the
    events that [parseEvents] returns are pairwise distinct, and so are the
    ids of the calendars that [parseCalendars] returns, whatever the reply
    is. *)
Theorem listing_ids_are_distinct (reply : jsstring) :
  NoDup (List.map EventInfo.id (parseEvents reply))
  /\ NoDup (List.map CalendarInfo.id (parseCalendars reply)).
Proof.
  split.
  - apply (mapi_from_ids parseEvent EventInfo.id); reflexivity.
  - unfold parseCalendars, mapi.
    apply (mapi_from_ids _ CalendarInfo.id); reflexivity.
Qed.

(** *** More on escaping *)

Lemma escape_length (str : jsstring) :
  List.length (escapeForAppleScript str)
  = (List.length str + List.length (filter isSpecial str))%nat.
Proof.
  rewrite escape_one_pass.
  induction str as [|c str IH]; [reflexivity|].
  cbn [flat_map filter]; rewrite length_app, IH.
  unfold escapeUnit, isSpecial.
  destruct (N.eqb c 92), (N.eqb c 34); cbn [orb List.length app bs dq];
    simpl; lia.
Qed.

Lemma filter_isSpecial_nil (str : jsstring) :
  filter isSpecial str = [] <-> plain str.
Proof.
  unfold plain; induction str as [|c str IH].
  - split; [intros _ x [] | reflexivity].
  - cbn [filter]; unfold isSpecial at 1.
    destruct (N.eqb c 34) eqn:E34; [|destruct (N.eqb c 92) eqn:E92];
      cbn [orb].
    + apply N.eqb_eq in E34; split; [discriminate|].
      intros H; destruct (H c (or_introl eq_refl)); contradiction.
    + apply N.eqb_eq in E92; split; [discriminate|].
      intros H; destruct (H c (or_introl eq_refl)); contradiction.
    + apply N.eqb_neq in E34, E92; rewrite IH; split.
      * intros H x [<-|Hx]; [split; assumption | apply H, Hx].
      * intros H x Hx; apply H; right; exact Hx.
Qed.

(** X15.  [escapeForAppleScript] loses nothing and adds only what is
    needed: two different texts have different escaped texts; the escaped
    text is longer than the text by the number of its quotes and
    backslashes; and a text comes out unchanged exactly when it holds
    neither. *)
Theorem escapeForAppleScript_is_faithful (str : jsstring) :
  (forall other,
      escapeForAppleScript str = escapeForAppleScript other -> str = other)
  /\ List.length (escapeForAppleScript str)
     = (List.length str + List.length (filter isSpecial str))%nat
  /\ (escapeForAppleScript str = str <-> plain str).
Proof.
  split; [|split].
  - intros other H.
    pose proof (readLiteral_escaped str []) as R1.
    pose proof (readLiteral_escaped other []) as R2.
    rewrite <- !escape_one_pass in R1, R2.
    rewrite H, R2 in R1; inversion R1; reflexivity.
  - apply escape_length.
  - split.
    + intros H; apply filter_isSpecial_nil.
      pose proof (escape_length str) as L; rewrite H in L.
      destruct (filter isSpecial str); [reflexivity | simpl in L; lia].
    + intros Hp; rewrite escape_one_pass.
      induction str as [|c str IH]; [reflexivity|].
      destruct (Hp c (or_introl eq_refl)) as [H34 H92].
      cbn [flat_map]; unfold escapeUnit.
      rewrite (proj2 (N.eqb_neq c 92) H92), (proj2 (N.eqb_neq c 34) H34).
      cbn [app]; f_equal; apply IH.
      intros x Hx; apply Hp; right; exact Hx.
Qed.

(** X16.  [create_event] cannot tell a missing optional argument from a
    falsy one: a call behaves exactly like the call in which a missing or
    empty calendar name is replaced by [Kalender], an empty location or
    description is left out, an all-day flag that is false is left out and
    an empty list of alarms is left out.  (So an event is always created in
    a calendar named by the request or in the one named [Kalender].) *)
Theorem create_event_treats_falsy_as_missing (host : Host) (a : Args.t) :
  callToolHandler host (Request.mk (lit "create_event") (Some a))
  = callToolHandler host
      (Request.mk (lit "create_event") (Some (normalizeCreate a))).
Proof.
  rewrite !handler_create_event.
  change (Args.title (normalizeCreate a)) with (Args.title a).
  destruct (Args.title a) as [title|]; [|reflexivity].
  assert (E : createRequest host title (normalizeCreate a)
              = createRequest host title a).
  { unfold createRequest, normalizeCreate, createEventScript.
    cbn [Args.startDate Args.endDate Args.calendarName Args.location
         Args.description Args.isAllDay Args.alarms].
    destruct (Args.calendarName a) as [[|? ?]|],
      (Args.location a) as [[|? ?]|], (Args.description a) as [[|? ?]|],
      (Args.isAllDay a) as [[|]|], (Args.alarms a) as [[|? ?]|];
      reflexivity. }
  rewrite E; reflexivity.
Qed.

(** *** The launch preamble leaves the script intact *)

Lemma readLiteral_cons (c : N) (s : jsstring) :
  AppleScript.readLiteral (c :: s)
  = if N.eqb c 34 then Some ([], s)
    else if N.eqb c 92 then
      match s with
      | [] => None
      | d :: s'' =>
          AppleScript.consValue (AppleScript.unescapeUnit d)
            (AppleScript.readLiteral s'')
      end
    else AppleScript.consValue (Some c) (AppleScript.readLiteral s).
Proof. reflexivity. Qed.

Lemma consValue_app (c : option N) (x y : option (jsstring * jsstring))
      (t : jsstring) :
  (forall v r, x = Some (v, r) -> y = Some (v, r ++ t)) ->
  forall v r,
    AppleScript.consValue c x = Some (v, r) ->
    AppleScript.consValue c y = Some (v, r ++ t).
Proof.
  intros Hxy v r; destruct c as [c|], x as [[v' r']|]; cbn;
    intros H; try discriminate H.
  rewrite (Hxy v' r' eq_refl); inversion H; reflexivity.
Qed.

Lemma readLiteral_app_both (s : jsstring) :
  (forall v r t,
      AppleScript.readLiteral s = Some (v, r) ->
      AppleScript.readLiteral (s ++ t) = Some (v, r ++ t))
  /\ (forall c v r t,
         AppleScript.readLiteral (c :: s) = Some (v, r) ->
         AppleScript.readLiteral ((c :: s) ++ t) = Some (v, r ++ t)).
Proof.
  induction s as [|d s [IH1 IH2]].
  - split; [intros v r t H; discriminate H|].
    intros c v r t; change (([c]) ++ t) with (c :: t).
    rewrite !readLiteral_cons.
    destruct (N.eqb c 34); [intros H; inversion H; reflexivity|].
    destruct (N.eqb c 92); cbn; intros H; discriminate H.
  - split; [intros v r t H; apply IH2, H|].
    intros c v r t.
    change ((c :: d :: s) ++ t) with (c :: (d :: s) ++ t).
    rewrite (readLiteral_cons c (d :: s)),
      (readLiteral_cons c ((d :: s) ++ t)).
    destruct (N.eqb c 34); [intros H; inversion H; reflexivity|].
    destruct (N.eqb c 92).
    + cbn [app]; apply consValue_app; intros v' r'; apply IH1.
    + apply consValue_app; intros v' r'; apply IH2.
Qed.

(** X17.  What [runAppleScript] hands to [osascript] is its argument with
    fixed text around it: the launch of the Calendar application and the
    half-second delay before, a line end and two spaces after.  Every
    string literal of the script is therefore a literal of the text that
    runs, with the same value. *)
Theorem launchScript_keeps_the_script (script : jsstring) :
  (exists preamble,
      (forall other,
          launchScript other = preamble ++ other ++ nl ++ lit "  ")
      /\ quotedAt preamble (lit "tell application ") (lit "Calendar")
           (nl ++ lit "      launch" ++ nl ++ lit "    end tell" ++ nl
            ++ lit "    delay 0.5" ++ nl ++ lit "    "))
  /\ (forall tag value,
         literalValue script tag value ->
         literalValue (launchScript script) tag value).
Proof.
  assert (E : forall other,
             launchScript other
             = (nl ++ lit "    tell application " ++ quoted (lit "Calendar")
                ++ nl ++ lit "      launch" ++ nl ++ lit "    end tell" ++ nl
                ++ lit "    delay 0.5" ++ nl ++ lit "    ")
               ++ other ++ nl ++ lit "  ").
  { intros other; unfold launchScript; cbn [join].
    rewrite <- !app_assoc; reflexivity. }
  split.
  - eexists; split; [exact E|].
    apply quotedAt_app_l.
    change (lit "    tell application ")
      with (lit "    " ++ lit "tell application ").
    rewrite <- app_assoc; apply quotedAt_app_l, quotedAt_here.
  - intros tag value (body & post & Hq & Hr).
    exists body, (post ++ nl ++ lit "  "); split.
    + rewrite E; apply quotedAt_app_l, quotedAt_app_r, Hq.
    + pose proof (proj1 (readLiteral_app_both (body ++ dq ++ post))
                    value post (nl ++ lit "  ") Hr) as H.
      rewrite <- !app_assoc in H; exact H.
Qed.
